(** * py_attio.client: pagination, batch creation and error classification

    A shallow embedding of [src/py_attio/client.py]: the Python values the
    client handles, the built-in operations its control flow relies on,
    [BaseClient._request] and [BaseClient._handle_error], the resource methods
    [list_records], [list_entries] and [create_record], and the helpers
    [paginate_records], [paginate_entries] and [batch_create_records].

    The HTTP session ([requests.Session.request]) is the only external
    collaborator; it is a parameter of the development. *)

From Stdlib Require Import ZArith List String Ascii Bool Lia DecimalString.
Import ListNotations.

Local Open Scope string_scope.
Local Open Scope list_scope.
Local Open Scope Z_scope.
Local Set Warnings "-register-all".

(** ** Python values *)

(** The values that travel through the client are the ones [json] produces
    and consumes: [None], booleans, integers, strings, lists and dicts.
    A dict keeps its keys in insertion order, as Python's does, so it is an
    association list; numbers are integers (floats are left out). *)
Inductive value : Type :=
  | VNone
  | VBool (b : bool)
  | VInt (n : Z)
  | VStr (s : string)
  | VList (items : list value)
  | VDict (fields : list (string * value)).

Definition dict : Type := list (string * value).

(** [d.get(k)] with no default: the value bound to the first entry of [k]. *)
Fixpoint dict_get (k : string) (d : dict) : option value :=
  match d with
  | [] => None
  | (k', v) :: rest => if String.eqb k k' then Some v else dict_get k rest
  end.

(** [k in d]. *)
Definition dict_contains (k : string) (d : dict) : bool :=
  match dict_get k d with Some _ => true | None => false end.

(** [d.get(k, default)]. *)
Definition dict_get_default (k : string) (default : value) (d : dict) : value :=
  match dict_get k d with Some v => v | None => default end.

(** [d[k] = v]: an existing key keeps its position, a new key goes last. *)
Fixpoint dict_set (k : string) (v : value) (d : dict) : dict :=
  match d with
  | [] => [(k, v)]
  | (k', v') :: rest =>
      if String.eqb k k' then (k', v) :: rest else (k', v') :: dict_set k v rest
  end.

(** [d.setdefault(k, v)], for its effect on [d] (the client drops the
    returned value). *)
Definition dict_setdefault (k : string) (v : value) (d : dict) : dict :=
  if dict_contains k d then d else dict_set k v d.

(** ** Exceptions *)

Inductive exn_kind : Type :=
  | ValueError
  | PermissionError
  | FileNotFoundError
  | RuntimeError
  | Exception
  | TypeError
  | KeyError
  | LibraryError (class_name : string).

(** An exception instance; [message] is what [str(e)] returns.  Every kind
    above derives from Python's [Exception]. *)
Record exn : Type := Raise_ { kind : exn_kind; message : string }.

(** The outcome of a call that may raise. *)
Definition result (A : Type) : Type := (exn + A)%type.

Definition type_error {A : Type} (msg : string) : result A :=
  inl (Raise_ TypeError msg).

(** ** Built-in operations *)

Definition type_name (v : value) : string :=
  match v with
  | VNone => "NoneType"
  | VBool _ => "bool"
  | VInt _ => "int"
  | VStr _ => "str"
  | VList _ => "list"
  | VDict _ => "dict"
  end.

(** Truth value of [v], as tested by [if not v]. *)
Definition py_bool (v : value) : bool :=
  match v with
  | VNone => false
  | VBool b => b
  | VInt n => negb (n =? 0)
  | VStr s => negb (String.eqb s "")
  | VList items => match items with [] => false | _ => true end
  | VDict fields => match fields with [] => false | _ => true end
  end.

Definition is_str (k : string) (v : value) : bool :=
  match v with VStr s => String.eqb s k | _ => false end.

(** [k in v] for a string [k]: key membership in a dict, element membership
    in a list, substring test in a string, [TypeError] otherwise. *)
Definition py_contains (k : string) (v : value) : result bool :=
  match v with
  | VDict fields => inr (dict_contains k fields)
  | VList items => inr (existsb (is_str k) items)
  | VStr s => inr (match index 0 k s with Some _ => true | None => false end)
  | _ => type_error ("argument of type '" ++ type_name v ++ "' is not iterable")
  end.

(** [v[k]] for a string [k]. *)
Definition py_getitem (v : value) (k : string) : result value :=
  match v with
  | VDict fields =>
      match dict_get k fields with
      | Some x => inr x
      | None => inl (Raise_ KeyError ("'" ++ k ++ "'"))
      end
  | VList _ => type_error "list indices must be integers or slices, not str"
  | VStr _ => type_error "string indices must be integers, not 'str'"
  | _ => type_error ("'" ++ type_name v ++ "' object is not subscriptable")
  end.

Fixpoint chars (s : string) : list value :=
  match s with
  | EmptyString => []
  | String c rest => VStr (String c EmptyString) :: chars rest
  end.

(** The items [for x in v] runs through: the elements of a list, the keys of
    a dict, the characters of a string; other values are not iterable. *)
Definition py_iter (v : value) : result (list value) :=
  match v with
  | VList items => inr items
  | VDict fields => inr (map (fun kv => VStr (fst kv)) fields)
  | VStr s => inr (chars s)
  | _ => type_error ("'" ++ type_name v ++ "' object is not iterable")
  end.

(** [len(v)]. *)
Definition py_len (v : value) : result Z :=
  match v with
  | VList items => inr (Z.of_nat (List.length items))
  | VDict fields => inr (Z.of_nat (List.length fields))
  | VStr s => inr (Z.of_nat (String.length s))
  | _ => type_error ("object of type '" ++ type_name v ++ "' has no len()")
  end.

Definition dquote : string := String (ascii_of_nat 34) EmptyString.

(** [v += n] for an integer [n]: integers and booleans add, everything else
    raises [TypeError]. *)
Definition py_iadd (v : value) (n : Z) : result value :=
  match v with
  | VInt m => inr (VInt (m + n))
  | VBool b => inr (VInt ((if b then 1 else 0) + n))
  | VList _ => type_error "'int' object is not iterable"
  | VStr _ => type_error ("can only concatenate str (not " ++ dquote ++ "int" ++ dquote
                           ++ ") to str")
  | _ => type_error ("unsupported operand type(s) for +=: '" ++ type_name v
                     ++ "' and 'int'")
  end.

(** [range(start, stop, step)] as the list of its elements. *)
Definition py_range (start stop step : Z) : result (list Z) :=
  if step =? 0 then inl (Raise_ ValueError "range() arg 3 must not be zero")
  else
    let count :=
      if 0 <? step then (stop - start + step - 1) / step
      else (start - stop - step - 1) / (- step) in
    inr (map (fun i => start + Z.of_nat i * step) (seq 0 (Z.to_nat count))).

(** Where a slice bound lands in a sequence of length [len]. *)
Definition clamp_index (len i : Z) : Z :=
  let i := if i <? 0 then i + len else i in
  Z.max 0 (Z.min len i).

(** [l[i:j]]. *)
Definition py_slice {A : Type} (l : list A) (i j : Z) : list A :=
  let len := Z.of_nat (List.length l) in
  let lo := clamp_index len i in
  let hi := clamp_index len j in
  firstn (Z.to_nat (hi - lo)) (skipn (Z.to_nat lo) l).

Definition string_of_Z (n : Z) : string :=
  NilZero.string_of_int (Z.to_int n).

Fixpoint join (sep : string) (parts : list string) : string :=
  match parts with
  | [] => ""
  | [p] => p
  | p :: rest => (p ++ sep ++ join sep rest)%string
  end.

(** [str(v)] and [repr(v)].  Quoting and escaping a string ([repr] of a
    [str]) depends on Unicode tables and is left as the parameter
    [repr_str]. *)
Section Formatting.
Variable repr_str : string -> string.

Fixpoint py_repr (v : value) : string :=
  match v with
  | VNone => "None"
  | VBool true => "True"
  | VBool false => "False"
  | VInt n => string_of_Z n
  | VStr s => repr_str s
  | VList items => ("[" ++ join ", " (map py_repr items) ++ "]")%string
  | VDict fields =>
      ("{" ++ join ", " (map (fun kv : string * value => let (k, x) := kv in
                                        repr_str k ++ ": " ++ py_repr x) fields)
           ++ "}")%string
  end.

Definition py_str (v : value) : string :=
  match v with
  | VStr s => s
  | _ => py_repr v
  end.
End Formatting.

(** ** HTTP requests and responses *)

(** The keyword arguments [_request] forwards to the session. *)
Inductive kwargs : Type :=
  | NoArgs
  | Json (payload : value)
  | Params (query : value).

Record request : Type :=
  { method : string; url : string; args : kwargs }.

(** What the client reads of a [requests.Response]: the status code, the
    [ok] flag as the library reports it, the raw body text, and [json], the
    outcome of calling [response.json()]. *)
Record response : Type :=
  { status_code : Z; ok : bool; text : string; json : result value }.

(** What an observer of a call sees, in order: the requests sent with the
    session's replies, and the items a generator yields. *)
Inductive event : Type :=
  | Call (req : request) (reply : result response)
  | Yield (item : value).

Definition base_url : string := "https://api.attio.com/v2".

Section Client.
Variable repr_str : string -> string.

(** The remote side: a state and [session.request], which answers a
    request with a response or raises. *)
Variable World : Type.
Variable session_request : World -> request -> World * result response.

(** *** Computations that call the API *)

(** A computation threads the remote state, logs its events and either
    returns or raises. *)
Definition M (A : Type) : Type := World -> result A * World * list event.

Definition ret {A : Type} (a : A) : M A := fun w => (inr a, w, []).

Definition bind {A B : Type} (m : M A) (f : A -> M B) : M B :=
  fun w =>
    match m w with
    | (inl e, w1, ev1) => (inl e, w1, ev1)
    | (inr a, w1, ev1) =>
        match f a w1 with
        | (r, w2, ev2) => (r, w2, ev1 ++ ev2)
        end
    end.

(** [try: m  except Exception as e: handler e]. *)
Definition try_except {A : Type} (m : M A) (handler : exn -> M A) : M A :=
  fun w =>
    match m w with
    | (inl e, w1, ev1) =>
        match handler e w1 with
        | (r, w2, ev2) => (r, w2, ev1 ++ ev2)
        end
    | (inr a, w1, ev1) => (inr a, w1, ev1)
    end.

Definition lift {A : Type} (r : result A) : M A := fun w => (r, w, []).

Notation "x <- m ;; k" := (bind m (fun x => k))
  (at level 61, m at next level, right associativity).

(** *** BaseClient *)

(** The message [_handle_error] reports: the body's [message] entry when
    the body parses to a dict that has one, the raw text otherwise (a body
    that does not parse, or parses to something without [.get], lands in
    the bare [except]). *)
Definition error_message_of (r : response) : value :=
  match json r with
  | inr (VDict error_data) => dict_get_default "message" (VStr (text r)) error_data
  | inr _ => VStr (text r)
  | inl _ => VStr (text r)
  end.

Definition _handle_error (r : response) : result unit :=
  let status_code := status_code r in
  let error_message := py_str repr_str (error_message_of r) in
  if status_code =? 400 then
    inl (Raise_ ValueError ("Bad Request (400): " ++ error_message))
  else if status_code =? 401 then
    inl (Raise_ PermissionError
           ("Unauthorized (401): Invalid API key or permissions - " ++ error_message))
  else if status_code =? 403 then
    inl (Raise_ PermissionError ("Forbidden (403): Access denied - " ++ error_message))
  else if status_code =? 404 then
    inl (Raise_ FileNotFoundError
           ("Not Found (404): Resource not found - " ++ error_message))
  else if status_code =? 409 then
    inl (Raise_ ValueError ("Conflict (409): Resource conflict - " ++ error_message))
  else if status_code =? 422 then
    inl (Raise_ ValueError
           ("Unprocessable Entity (422): Validation error - " ++ error_message))
  else if status_code =? 429 then
    inl (Raise_ RuntimeError
           ("Rate Limited (429): Too many requests - " ++ error_message))
  else if 500 <=? status_code then
    inl (Raise_ RuntimeError
           ("Server Error (" ++ string_of_Z status_code ++ "): " ++ error_message))
  else
    inl (Raise_ Exception
           ("Request failed (" ++ string_of_Z status_code ++ "): " ++ error_message)).

Definition _request (method path : string) (kw : kwargs) : M value :=
  fun w =>
    let url := (base_url ++ path)%string in
    let req := {| method := method; url := url; args := kw |} in
    match session_request w req with
    | (w1, inl e) => (inl e, w1, [Call req (inl e)])
    | (w1, inr response) =>
        let ev := [Call req (inr response)] in
        if negb (ok response) then
          match _handle_error response with
          | inl e => (inl e, w1, ev)
          | inr tt => (json response, w1, ev)
          end
        else (json response, w1, ev)
    end.

(** *** Client: the resource methods the helpers call *)

Definition list_records (object_id : string) (payload : option dict) : M value :=
  let payload := match payload with None => [] | Some p => p end in
  _request "POST" ("/objects/" ++ object_id ++ "/records/query")
           (Json (VDict payload)).

Definition create_record (object_id : string) (payload : value) : M value :=
  _request "POST" ("/objects/" ++ object_id ++ "/records") (Json payload).

Definition list_entries (list_id : string) (payload : option dict) : M value :=
  let payload := match payload with None => [] | Some p => p end in
  _request "POST" ("/lists/" ++ list_id ++ "/entries/query")
           (Json (VDict payload)).

(** *** Pagination helpers *)

(** How a generator run stands: exhausted ([StopIteration]), ended by an
    exception, or still inside its loop when the observation stops. *)
Inductive ending : Type :=
  | StopIteration
  | Raised (e : exn)
  | Running.

(** A generator observed while a consumer pulls items from it, through at
    most [fuel] passes of its loop: how it stands, the contents of the
    payload dict (the generator updates the very object the caller passed
    in, so this is what the caller reads from it afterwards), the remote
    state, and the events in program order.  A consumer that stops early
    has seen a prefix of the events. *)
Record run : Type :=
  { ended : ending; payload_after : dict; world_after : World;
    events : list event }.

(** How one pass through the body of [while True] leaves it. *)
Inductive flow : Type :=
  | Break
  | Continue (offset : value).

(** The loop body after the fetch: the items it yields, then how it leaves
    the body ([break], the end of the body with the new [offset], or an
    exception). *)
Definition handle_page (page_size : Z) (offset response : value)
  : result flow * list value :=
  match py_contains "data" response with
  | inl e => (inl e, [])
  | inr false => (inr Break, [])
  | inr true =>
      match py_getitem response "data" with
      | inl e => (inl e, [])
      | inr records =>
          if negb (py_bool records) then (inr Break, [])
          else
            match py_iter records with
            | inl e => (inl e, [])
            | inr items =>
                match py_len records with
                | inl e => (inl e, items)
                | inr n =>
                    if n <? page_size then (inr Break, items)
                    else
                      match py_iadd offset page_size with
                      | inl e => (inl e, items)
                      | inr offset' => (inr (Continue offset'), items)
                      end
                end
            end
      end
  end.

(** One pass through the loop body: store [offset] in the payload, fetch,
    handle the page. *)
Definition paginate_pass (query : dict -> M value) (page_size : Z)
    (payload : dict) (offset : value) (w : World)
  : result flow * dict * World * list event :=
  let payload := dict_set "offset" offset payload in
  match query payload w with
  | (inl e, w1, ev) => (inl e, payload, w1, ev)
  | (inr response, w1, ev) =>
      let (r, items) := handle_page page_size offset response in
      (r, payload, w1, ev ++ map Yield items)
  end.

(** [while True: ...], one unit of fuel per pass. *)
Fixpoint paginate_loop (fuel : nat) (query : dict -> M value) (page_size : Z)
    (payload : dict) (offset : value) (w : World) : run :=
  match fuel with
  | O => {| ended := Running; payload_after := payload; world_after := w;
            events := [] |}
  | S fuel' =>
      match paginate_pass query page_size payload offset w with
      | (inl e, payload1, w1, ev) =>
          {| ended := Raised e; payload_after := payload1; world_after := w1;
             events := ev |}
      | (inr Break, payload1, w1, ev) =>
          {| ended := StopIteration; payload_after := payload1;
             world_after := w1; events := ev |}
      | (inr (Continue offset'), payload1, w1, ev) =>
          let rest := paginate_loop fuel' query page_size payload1 offset' w1 in
          {| ended := ended rest; payload_after := payload_after rest;
             world_after := world_after rest; events := ev ++ events rest |}
      end
  end.

(** The body shared by [paginate_records] and [paginate_entries], which
    differ only in the query method they call. *)
Definition paginate (query : dict -> M value) (payload : option dict)
    (page_size : Z) (fuel : nat) (w : World) : run :=
  let payload := match payload with None => [] | Some p => p end in
  let payload := dict_setdefault "limit" (VInt page_size) payload in
  let offset := dict_get_default "offset" (VInt 0) payload in
  paginate_loop fuel query page_size payload offset w.

Definition paginate_records (object_id : string) (payload : option dict)
    (page_size : Z) : nat -> World -> run :=
  paginate (fun p => list_records object_id (Some p)) payload page_size.

Definition paginate_entries (list_id : string) (payload : option dict)
    (page_size : Z) : nat -> World -> run :=
  paginate (fun p => list_entries list_id (Some p)) payload page_size.

(** *** Batch creation *)

Definition error_entry (e : exn) (record_payload : value) : value :=
  VDict [("error", VStr (message e)); ("payload", record_payload)].

(** [for record_payload in batch: ...], appending to [results]. *)
Fixpoint create_batch (object_id : string) (batch : list value)
    (results : list value) : M (list value) :=
  match batch with
  | [] => ret results
  | record_payload :: rest =>
      entry <- try_except (create_record object_id record_payload)
                          (fun e => ret (error_entry e record_payload)) ;;
      create_batch object_id rest (results ++ [entry])
  end.

(** [for i in starts: batch = records[i:i + batch_size]; ...]. *)
Fixpoint create_batches (object_id : string) (records : list value)
    (batch_size : Z) (starts : list Z) (results : list value)
  : M (list value) :=
  match starts with
  | [] => ret results
  | i :: later =>
      results1 <- create_batch object_id
                    (py_slice records i (i + batch_size)) results ;;
      create_batches object_id records batch_size later results1
  end.

Definition batch_create_records (object_id : string) (records : list value)
    (batch_size : Z) : M (list value) :=
  starts <- lift (py_range 0 (Z.of_nat (List.length records)) batch_size) ;;
  create_batches object_id records batch_size starts [].
End Client.

Arguments ret {World A} a _.
Arguments bind {World A B} m f _.
Arguments try_except {World A} m handler _.
Arguments lift {World A} r _.
Arguments _request repr_str {World} session_request method path kw _.
Arguments list_records repr_str {World} session_request object_id payload _.
Arguments list_entries repr_str {World} session_request list_id payload _.
Arguments create_record repr_str {World} session_request object_id payload _.
Arguments run World : clear implicits.
Arguments Build_run {World} ended payload_after world_after events.
Arguments ended {World} r.
Arguments payload_after {World} r.
Arguments world_after {World} r.
Arguments events {World} r.
Arguments paginate_pass {World} query page_size payload offset w.
Arguments paginate_loop {World} fuel query page_size payload offset w.
Arguments paginate {World} query payload page_size fuel w.
Arguments paginate_records repr_str {World} session_request object_id payload
  page_size fuel w : rename.
Arguments paginate_entries repr_str {World} session_request list_id payload
  page_size fuel w : rename.
Arguments create_batch repr_str {World} session_request object_id batch results _.
Arguments create_batches repr_str {World} session_request object_id records
  batch_size starts results _.
Arguments batch_create_records repr_str {World} session_request object_id
  records batch_size _.

(** ** Reading a run *)

(** What [_request] makes of the session's reply: the parsed body of an [ok]
    response, the classifier's exception otherwise. *)
Definition reply_outcome (repr_str : string -> string)
    (reply : result response) : result value :=
  match reply with
  | inl e => inl e
  | inr resp =>
      if ok resp then json resp
      else match _handle_error repr_str resp with
           | inl e => inl e
           | inr _ => json resp
           end
  end.

(** The requests sent during a run, in order. *)
Fixpoint requests (evs : list event) : list request :=
  match evs with
  | [] => []
  | Call req _ :: rest => req :: requests rest
  | Yield _ :: rest => requests rest
  end.

(** The items yielded during a run, in order. *)
Fixpoint yielded (evs : list event) : list value :=
  match evs with
  | [] => []
  | Call _ _ :: rest => yielded rest
  | Yield item :: rest => item :: yielded rest
  end.

(** The dict a request carries as its JSON body. *)
Definition body (req : request) : dict :=
  match args req with
  | Json (VDict d) => d
  | _ => []
  end.

(** The two pagination generators, by the resource they page through. *)
Inductive resource : Type := Records | Entries.

Definition paginator (repr_str : string -> string) {World : Type}
    (session_request : World -> request -> World * result response)
    (res : resource) : string -> option dict -> Z -> nat -> World -> run World :=
  match res with
  | Records => paginate_records repr_str session_request
  | Entries => paginate_entries repr_str session_request
  end.

Definition query_path (res : resource) (id : string) : string :=
  match res with
  | Records => "/objects/" ++ id ++ "/records/query"
  | Entries => "/lists/" ++ id ++ "/entries/query"
  end.

(** The query method each generator calls, and the request it sends for a
    payload. *)
Definition query_of (repr_str : string -> string) {World : Type}
    (session_request : World -> request -> World * result response)
    (res : resource) (id : string) : dict -> M World value :=
  match res with
  | Records => fun p => list_records repr_str session_request id (Some p)
  | Entries => fun p => list_entries repr_str session_request id (Some p)
  end.

Definition query_request (res : resource) (id : string) (payload : dict)
  : request :=
  {| method := "POST"; url := base_url ++ query_path res id;
     args := Json (VDict payload) |}.

(** The request a create call for [payload] sends. *)
Definition create_request (object_id : string) (payload : value) : request :=
  {| method := "POST";
     url := base_url ++ "/objects/" ++ object_id ++ "/records";
     args := Json payload |}.

(** The result entry of one payload, given the session's reply to its
    create call. *)
Definition entry_for (repr_str : string -> string) (payload : value)
    (reply : result response) : value :=
  match reply_outcome repr_str reply with
  | inr created => created
  | inl e => error_entry e payload
  end.

(** The session's replies to one create call per payload, in order. *)
Fixpoint create_replies {World : Type}
    (session_request : World -> request -> World * result response)
    (object_id : string) (records : list value) (w : World)
  : list (result response) * World :=
  match records with
  | [] => ([], w)
  | payload :: rest =>
      let (w1, reply) := session_request w (create_request object_id payload) in
      let (replies, w2) := create_replies session_request object_id rest w1 in
      (reply :: replies, w2)
  end.

(** The result entries and the calls of a batch, from the payloads and the
    replies their create calls received. *)
Definition entries_of (repr_str : string -> string) (records : list value)
    (replies : list (result response)) : list value :=
  map (fun pr => entry_for repr_str (fst pr) (snd pr)) (combine records replies).

Definition calls_of (object_id : string) (records : list value)
    (replies : list (result response)) : list event :=
  map (fun pr => Call (create_request object_id (fst pr)) (snd pr))
      (combine records replies).

(** ** The status-code table of the specification *)

(** The error kinds of the specification and its table from status code to
    kind, row by row as written there; [_handle_error] is compared with it
    below. *)
Inductive error_kind : Type :=
  | Validation
  | Unauthorized
  | Forbidden
  | NotFound
  | Conflict
  | Unprocessable
  | RateLimited
  | ServerFailure
  | GenericFailure.

Definition kind_of_status (status : Z) : error_kind :=
  if status =? 400 then Validation
  else if status =? 401 then Unauthorized
  else if status =? 403 then Forbidden
  else if status =? 404 then NotFound
  else if status =? 409 then Conflict
  else if status =? 422 then Unprocessable
  else if status =? 429 then RateLimited
  else if 500 <=? status then ServerFailure
  else GenericFailure.

(** How the client renders each kind: the exception class it raises and the
    text that precedes the message. *)
Definition exception_class (k : error_kind) : exn_kind :=
  match k with
  | Validation | Conflict | Unprocessable => ValueError
  | Unauthorized | Forbidden => PermissionError
  | NotFound => FileNotFoundError
  | RateLimited | ServerFailure => RuntimeError
  | GenericFailure => Exception
  end.

Definition label (k : error_kind) (status : Z) : string :=
  match k with
  | Validation => "Bad Request (400): "
  | Unauthorized => "Unauthorized (401): Invalid API key or permissions - "
  | Forbidden => "Forbidden (403): Access denied - "
  | NotFound => "Not Found (404): Resource not found - "
  | Conflict => "Conflict (409): Resource conflict - "
  | Unprocessable => "Unprocessable Entity (422): Validation error - "
  | RateLimited => "Rate Limited (429): Too many requests - "
  | ServerFailure => "Server Error (" ++ string_of_Z status ++ "): "
  | GenericFailure => "Request failed (" ++ string_of_Z status ++ "): "
  end.

(** ** Sessions to run the client against *)

Definition ok_response (content : value) : response :=
  {| status_code := 200; ok := true; text := ""; json := inr content |}.

Definition error_response (status : Z) (raw : string) (content : result value)
  : response :=
  {| status_code := status; ok := false; text := raw; json := content |}.

Definition connection_error : exn :=
  Raise_ (LibraryError "ConnectionError") "connection refused".

(** A session that replays a list of replies and then fails to connect. *)
Definition scripted (replies : list (result response)) (req : request)
  : list (result response) * result response :=
  match replies with
  | [] => ([], inl connection_error)
  | reply :: rest => (rest, reply)
  end.

(** A server over a fixed result set [db]: a query with integer [limit] and
    [offset] is answered with the items from [offset] up to [offset + limit];
    anything else is a bad request. *)
Definition paged_server (db : list value) (w : unit) (req : request)
  : unit * result response :=
  match dict_get "limit" (body req), dict_get "offset" (body req) with
  | Some (VInt limit), Some (VInt offset) =>
      (w, inr (ok_response
                 (VDict [("data",
                          VList (firstn (Z.to_nat limit)
                                        (skipn (Z.to_nat offset) db)))])))
  | _, _ => (w, inr (error_response 400 "bad query" (inl (Raise_ ValueError "no JSON"))))
  end.

(** A session serves the result set [db] consistently at a query endpoint
    when every query sent there with a positive integer [limit] and a
    non-negative integer [offset] is answered, successfully, with the items
    of [db] from [offset] up to [offset + limit], in order. *)
Definition serves_pages {World : Type}
    (session_request : World -> request -> World * result response)
    (res : resource) (id : string) (db : list value) : Prop :=
  forall (w : World) (payload : dict) (limit offset : Z),
    dict_get "limit" payload = Some (VInt limit) ->
    dict_get "offset" payload = Some (VInt offset) ->
    0 < limit -> 0 <= offset ->
    exists w1 resp content,
      session_request w (query_request res id payload) = (w1, inr resp)
      /\ ok resp = true
      /\ json resp = inr (VDict content)
      /\ dict_get "data" content
         = Some (VList (firstn (Z.to_nat limit) (skipn (Z.to_nat offset) db))).

(** A server that creates what it is sent, except that a payload carrying
    [fail] is refused with status 422. *)
Definition picky_server (w : unit) (req : request) : unit * result response :=
  match args req with
  | Json payload =>
      if dict_contains "fail" (body req) then
        (w, inr (error_response 422 "rejected"
                   (inr (VDict [("message", VStr "invalid record")]))))
      else (w, inr (ok_response (VDict [("data", payload)])))
  | _ => (w, inl connection_error)
  end.

(** Five create payloads, the one at index 3 marked to be refused. *)
Definition five_payloads : list value :=
  [ VDict [("name", VStr "a")]; VDict [("name", VStr "b")];
    VDict [("name", VStr "c")]; VDict [("fail", VBool true)];
    VDict [("name", VStr "e")] ].

(** A stand-in for [repr] of a string: single quotes, no escaping. *)
Definition quote (s : string) : string := "'" ++ s ++ "'".

(** ** More of the client: objects, attributes and the object helpers *)

(** [v.get(k, default)]: only a dict has the method. *)
Definition py_get (v : value) (k : string) (default : value) : result value :=
  match v with
  | VDict fields => inr (dict_get_default k default fields)
  | _ => inl (Raise_ (LibraryError "AttributeError")
                ("'" ++ type_name v ++ "' object has no attribute 'get'"))
  end.

(** [v is False]: identity with the one [False] object. *)
Definition is_False (v : value) : bool :=
  match v with
  | VBool false => true
  | _ => false
  end.

(** [v[k] = x] for a string [k]: the container after the assignment. *)
Definition py_setitem (v : value) (k : string) (x : value) : result value :=
  match v with
  | VDict fields => inr (VDict (dict_set k x fields))
  | VList _ => type_error "list indices must be integers or slices, not str"
  | _ => type_error ("'" ++ type_name v ++ "' object does not support item assignment")
  end.

Definition rbind {A B : Type} (r : result A) (f : A -> result B) : result B :=
  match r with
  | inl e => inl e
  | inr a => f a
  end.

(** [[obj for obj in objs if obj.get('is_system') is False]], element by
    element; an element without [.get] ends the comprehension with its
    exception. *)
Fixpoint custom_objects (objs : list value) : result (list value) :=
  match objs with
  | [] => inr []
  | obj :: rest =>
      rbind (py_get obj "is_system" VNone) (fun flag =>
      rbind (custom_objects rest) (fun kept =>
      inr (if is_False flag then obj :: kept else kept)))
  end.

(** What [object_data] reads after the dict it holds under [k] was updated
    in place to [x]. *)
Definition holding (k : string) (x : value) (object_data : value) : value :=
  match object_data with
  | VDict fields => VDict (dict_set k x fields)
  | _ => object_data
  end.

Section Resources.
Variable repr_str : string -> string.
Variable World : Type.
Variable session_request : World -> request -> World * result response.

Notation "x <- m ;; k" := (bind m (fun x => k))
  (at level 61, m at next level, right associativity).
Notation "x <~ r ;; k" := (rbind r (fun x => k))
  (at level 61, r at next level, right associativity).

Definition get_object (object_id : string) : M World value :=
  _request repr_str session_request "GET" ("/objects/" ++ object_id) NoArgs.

Definition list_objects : M World value :=
  _request repr_str session_request "GET" "/objects" NoArgs.

Definition list_attributes (target identifier : string) (query : option dict)
  : M World value :=
  let query := match query with None => [] | Some q => q end in
  _request repr_str session_request "GET"
    ("/" ++ target ++ "/" ++ identifier ++ "/attributes") (Params (VDict query)).

Definition list_custom_objects : M World value :=
  objects <- list_objects ;;
  has_data <- lift (py_contains "data" objects) ;;
  if has_data : bool then
    lift (data <~ py_getitem objects "data" ;;
          objs <~ py_iter data ;;
          kept <~ custom_objects objs ;;
          inr (VDict [("data", VList kept)]))
  else ret objects.

Definition get_object_schema (object_id : string) : M World value :=
  object_data <- get_object object_id ;;
  proceed <- lift (if py_bool object_data then py_contains "data" object_data
                   else inr false) ;;
  if proceed : bool then
    attributes <- list_attributes "objects" object_id None ;;
    has_data <- lift (py_contains "data" object_data) ;;
    if has_data : bool then
      lift (new_value <~ py_get attributes "data" (VList []) ;;
            target <~ py_getitem object_data "data" ;;
            target1 <~ py_setitem target "attributes" new_value ;;
            inr (holding "data" target1 object_data))
    else ret object_data
  else ret object_data.
End Resources.

Arguments get_object repr_str {World} session_request object_id _.
Arguments list_objects repr_str {World} session_request _.
Arguments list_attributes repr_str {World} session_request target identifier
  query _.
Arguments list_custom_objects repr_str {World} session_request _.
Arguments get_object_schema repr_str {World} session_request object_id _.

(** The requests of the object helpers. *)
Definition objects_request : request :=
  {| method := "GET"; url := base_url ++ "/objects"; args := NoArgs |}.

Definition object_request (object_id : string) : request :=
  {| method := "GET"; url := base_url ++ "/objects/" ++ object_id;
     args := NoArgs |}.

Definition attributes_request (object_id : string) : request :=
  {| method := "GET";
     url := base_url ++ "/objects/" ++ object_id ++ "/attributes";
     args := Params (VDict []) |}.

(** An object of the workspace that is user-defined: a dict whose
    [is_system] entry is [False]. *)
Definition is_custom (obj : value) : bool :=
  match obj with
  | VDict fields =>
      match dict_get "is_system" fields with
      | Some (VBool false) => true
      | _ => false
      end
  | _ => false
  end.

Definition is_dict (v : value) : bool :=
  match v with
  | VDict _ => true
  | _ => false
  end.

(** The calls of a run with their replies, in order. *)
Fixpoint calls (evs : list event) : list (request * result response) :=
  match evs with
  | [] => []
  | Call req reply :: rest => (req, reply) :: calls rest
  | Yield _ :: rest => calls rest
  end.

(** The items a response holds for the consumer: those of a non-empty
    iterable under [data]. *)
Definition page_items (response : value) : list value :=
  match py_contains "data" response with
  | inr true =>
      match py_getitem response "data" with
      | inr records =>
          if py_bool records then
            match py_iter records with
            | inr items => items
            | inl _ => []
            end
          else []
      | inl _ => []
      end
  | _ => []
  end.

Definition reply_items (repr_str : string -> string) (reply : result response)
  : list value :=
  match reply_outcome repr_str reply with
  | inr response => page_items response
  | inl _ => []
  end.

(** A server that answers every request with the same page. *)
Definition stubborn_server (page : list value) (w : unit) (req : request)
  : unit * result response :=
  (w, inr (ok_response (VDict [("data", VList page)]))).

(** A workspace with one system object and two custom ones, served at
    [/objects]; an object is served with its attributes beside it. *)
Definition workspace_objects : list value :=
  [ VDict [("api_slug", VStr "people"); ("is_system", VBool true)];
    VDict [("api_slug", VStr "projects"); ("is_system", VBool false)];
    VDict [("api_slug", VStr "legacy")];
    VDict [("api_slug", VStr "deals"); ("is_system", VBool false)] ].

Definition workspace_server (w : unit) (req : request) : unit * result response :=
  match args req with
  | NoArgs =>
      if String.eqb (url req) (url objects_request) then
        (w, inr (ok_response (VDict [("data", VList workspace_objects);
                                     ("next_page", VNone)])))
      else
        (w, inr (ok_response
                   (VDict [("data", VDict [("api_slug", VStr "projects")]);
                           ("meta", VInt 1)])))
  | _ =>
      (w, inr (ok_response
                 (VDict [("data", VList [VDict [("api_slug", VStr "name")]])])))
  end.

(** The example script [examples/objects/custom_objects.py] reads the
    attributes off a schema: [None] stands for the branch it skips. *)
Definition schema_attributes (schema : value) : result (option value) :=
  rbind (py_contains "data" schema) (fun has_data =>
  if has_data : bool then
    rbind (py_getitem schema "data") (fun data =>
    rbind (py_contains "attributes" data) (fun has_attributes =>
    if has_attributes : bool then
      rbind (py_getitem data "attributes") (fun attributes =>
      rbind (py_get attributes "data" (VList [])) (fun listed =>
      inr (Some listed)))
    else inr None))
  else inr None).

(** What one fetch contributes to the events of a run: the call, then the
    items of its page. *)
Definition page_block (repr_str : string -> string)
    (c : request * result response) : list event :=
  Call (fst c) (snd c) :: map Yield (reply_items repr_str (snd c)).

(** A session whose every answer is a page that is not short: an [ok]
    response with a non-empty list of at least [page_size] items under
    [data]. *)
Definition always_full {World : Type}
    (session_request : World -> request -> World * result response)
    (page_size : Z) : Prop :=
  forall (w : World) (req : request),
    exists w1 resp content items,
      session_request w req = (w1, inr resp)
      /\ ok resp = true
      /\ json resp = inr (VDict content)
      /\ dict_get "data" content = Some (VList items)
      /\ items <> []
      /\ page_size <= Z.of_nat (List.length items).

(** * Properties *)

(** ** Dicts *)

Lemma dict_get_set_eq (k : string) (v : value) (d : dict) :
  dict_get k (dict_set k v d) = Some v.
Proof.
  induction d as [|[k' v'] d IH]; simpl.
  - now rewrite String.eqb_refl.
  - destruct (String.eqb k k') eqn:E; simpl; rewrite E; auto.
Qed.

Lemma dict_get_set_ne (k k' : string) (v : value) (d : dict) :
  k <> k' -> dict_get k (dict_set k' v d) = dict_get k d.
Proof.
  intros Hne. induction d as [|[k0 v0] d IH]; simpl.
  - apply String.eqb_neq in Hne. now rewrite Hne.
  - destruct (String.eqb k' k0) eqn:E; simpl.
    + apply String.eqb_eq in E. subst k0.
      apply String.eqb_neq in Hne. now rewrite Hne.
    + destruct (String.eqb k k0); auto.
Qed.

Lemma dict_get_setdefault_eq (k : string) (v : value) (d : dict) :
  dict_get k (dict_setdefault k v d) = Some (dict_get_default k v d).
Proof.
  unfold dict_setdefault, dict_contains, dict_get_default.
  destruct (dict_get k d) eqn:E; auto using dict_get_set_eq.
Qed.

Lemma dict_get_setdefault_ne (k k' : string) (v : value) (d : dict) :
  k <> k' -> dict_get k (dict_setdefault k' v d) = dict_get k d.
Proof.
  intros Hne. unfold dict_setdefault.
  destruct (dict_contains k' d); auto using dict_get_set_ne.
Qed.

(** ** Lists and slices *)

Lemma py_slice_nat {A : Type} (l : list A) (i n : nat) :
  py_slice l (Z.of_nat i) (Z.of_nat i + Z.of_nat n) = firstn n (skipn i l).
Proof.
  unfold py_slice, clamp_index.
  destruct (Z.ltb_spec (Z.of_nat i) 0) as [H|_]; [lia|].
  destruct (Z.ltb_spec (Z.of_nat i + Z.of_nat n) 0) as [H|_]; [lia|].
  destruct (Nat.le_gt_cases (List.length l) i) as [Hi|Hi].
  - rewrite (skipn_all2 l Hi), firstn_nil.
    replace (Z.to_nat (Z.max 0 (Z.min (Z.of_nat (List.length l)) (Z.of_nat i))))
      with (List.length l) by lia.
    rewrite skipn_all. apply firstn_nil.
  - replace (Z.to_nat (Z.max 0 (Z.min (Z.of_nat (List.length l)) (Z.of_nat i))))
      with i by lia.
    destruct (Nat.le_gt_cases (List.length l) (i + n)) as [Hj|Hj].
    + rewrite !firstn_all2; auto; rewrite length_skipn; lia.
    + f_equal. lia.
Qed.

Lemma firstn_plus {A : Type} (a b : nat) (l : list A) :
  firstn (a + b) l = firstn a l ++ firstn b (skipn a l).
Proof.
  revert l. induction a as [|a IH]; intros l; simpl; auto.
  destruct l as [|x l]; simpl.
  - now rewrite firstn_nil.
  - now rewrite IH.
Qed.

Lemma string_app_assoc (a b c : string) :
  ((a ++ b) ++ c)%string = (a ++ b ++ c)%string.
Proof.
  induction a as [|x a IH]; simpl; auto. now rewrite IH.
Qed.

Lemma combine_app_same {A B : Type} (l1 l2 : list A) (r1 r2 : list B) :
  List.length l1 = List.length r1 ->
  combine (l1 ++ l2) (r1 ++ r2) = combine l1 r1 ++ combine l2 r2.
Proof.
  revert r1. induction l1 as [|x l1 IH]; intros [|y r1] Hlen; simpl in *;
    try discriminate; auto.
  f_equal. apply IH. now injection Hlen.
Qed.

Section Properties.
Variable repr_str : string -> string.
Context {World : Type}.
Variable session_request : World -> request -> World * result response.

(** ** Requests *)

(** A call of [_request] sends exactly one request and makes of the reply
    what [reply_outcome] says. *)
Lemma request_run (m p : string) (kw : kwargs) (w : World) :
  let req := {| method := m; url := base_url ++ p; args := kw |} in
  _request repr_str session_request m p kw w
  = (reply_outcome repr_str (snd (session_request w req)),
     fst (session_request w req),
     [Call req (snd (session_request w req))]).
Proof.
  intros req. unfold _request. fold req.
  destruct (session_request w req) as [w1 [e|resp]]; simpl; auto.
  destruct (ok resp); simpl; auto.
  destruct (_handle_error repr_str resp) as [e|[]]; auto.
Qed.

(** ** Batch creation *)

Lemma attempt_run (object_id : string) (payload : value) (w : World) :
  let req := create_request object_id payload in
  try_except (create_record repr_str session_request object_id payload)
             (fun e => ret (error_entry e payload)) w
  = (inr (entry_for repr_str payload (snd (session_request w req))),
     fst (session_request w req),
     [Call req (snd (session_request w req))]).
Proof.
  intros req. unfold try_except, create_record. rewrite request_run.
  fold (create_request object_id payload). fold req.
  unfold entry_for.
  destruct (reply_outcome repr_str (snd (session_request w req))); auto.
Qed.

Lemma create_replies_length (object_id : string) (records : list value) :
  forall w,
    List.length (fst (create_replies session_request object_id records w))
    = List.length records.
Proof.
  induction records as [|p rest IH]; intros w; simpl; auto.
  destruct (session_request w (create_request object_id p)) as [w1 reply].
  specialize (IH w1).
  destruct (create_replies session_request object_id rest w1). simpl in *.
  now rewrite IH.
Qed.

Lemma create_replies_app (object_id : string) (l1 l2 : list value) :
  forall w,
    create_replies session_request object_id (l1 ++ l2) w
    = (fst (create_replies session_request object_id l1 w)
         ++ fst (create_replies session_request object_id l2
                   (snd (create_replies session_request object_id l1 w))),
       snd (create_replies session_request object_id l2
              (snd (create_replies session_request object_id l1 w)))).
Proof.
  induction l1 as [|p rest IH]; intros w; simpl.
  - now destruct (create_replies session_request object_id l2 w).
  - destruct (session_request w (create_request object_id p)) as [w1 reply].
    rewrite IH.
    destruct (create_replies session_request object_id rest w1) as [r1 w2].
    simpl.
    now destruct (create_replies session_request object_id l2 w2).
Qed.

(** The inner loop makes one create call per payload of the batch, in
    order, and appends one entry per payload. *)
Lemma create_batch_run (object_id : string) (batch : list value) :
  forall results w,
    create_batch repr_str session_request object_id batch results w
    = (inr (results
              ++ entries_of repr_str batch
                   (fst (create_replies session_request object_id batch w))),
       snd (create_replies session_request object_id batch w),
       calls_of object_id batch
         (fst (create_replies session_request object_id batch w))).
Proof.
  induction batch as [|p rest IH]; intros results w; simpl.
  - unfold ret, entries_of, calls_of. simpl. now rewrite app_nil_r.
  - unfold bind. rewrite attempt_run. rewrite IH.
    destruct (session_request w (create_request object_id p)) as [w1 reply].
    simpl.
    destruct (create_replies session_request object_id rest w1) as [rs w2].
    simpl. unfold entries_of, calls_of. simpl.
    now rewrite <- app_assoc.
Qed.

Lemma entries_of_app (l1 l2 : list value) (r1 r2 : list (result response)) :
  List.length l1 = List.length r1 ->
  entries_of repr_str (l1 ++ l2) (r1 ++ r2)
  = entries_of repr_str l1 r1 ++ entries_of repr_str l2 r2.
Proof.
  intros Hlen. unfold entries_of.
  now rewrite combine_app_same, map_app.
Qed.

Lemma calls_of_app (object_id : string) (l1 l2 : list value)
    (r1 r2 : list (result response)) :
  List.length l1 = List.length r1 ->
  calls_of object_id (l1 ++ l2) (r1 ++ r2)
  = calls_of object_id l1 r1 ++ calls_of object_id l2 r2.
Proof.
  intros Hlen. unfold calls_of.
  now rewrite combine_app_same, map_app.
Qed.

(** The outer loop over [n] consecutive batch starts, from the [k]-th on,
    handles the payloads of those batches in order. *)
Lemma create_batches_run (object_id : string) (records : list value)
    (b : nat) :
  forall n k results w,
    let chunk := firstn (n * b) (skipn (k * b) records) in
    create_batches repr_str session_request object_id records (Z.of_nat b)
      (map (fun i => Z.of_nat i * Z.of_nat b) (seq k n)) results w
    = (inr (results
              ++ entries_of repr_str chunk
                   (fst (create_replies session_request object_id chunk w))),
       snd (create_replies session_request object_id chunk w),
       calls_of object_id chunk
         (fst (create_replies session_request object_id chunk w))).
Proof.
  induction n as [|n IH]; intros k results w chunk.
  - subst chunk. simpl. unfold ret, entries_of, calls_of. simpl.
    now rewrite app_nil_r.
  - simpl seq. simpl map. simpl create_batches. unfold bind.
    rewrite create_batch_run.
    replace (Z.of_nat k * Z.of_nat b) with (Z.of_nat (k * b)) by lia.
    rewrite py_slice_nat.
    set (c1 := firstn b (skipn (k * b) records)).
    rewrite IH.
    set (c2 := firstn (n * b) (skipn (S k * b) records)).
    assert (Hchunk : chunk = c1 ++ c2).
    { subst chunk c1 c2. simpl Nat.mul.
      now rewrite firstn_plus, skipn_skipn. }
    rewrite Hchunk, create_replies_app.
    simpl fst. simpl snd.
    rewrite entries_of_app, calls_of_app
      by (symmetry; apply create_replies_length).
    now rewrite app_assoc.
Qed.

Lemma range_covers (len step : Z) :
  0 <= len -> 0 < step -> len <= (len - 0 + step - 1) / step * step.
Proof.
  intros Hlen Hstep.
  pose proof (Z.div_mod (len - 0 + step - 1) step ltac:(lia)) as Hdm.
  pose proof (Z.mod_pos_bound (len - 0 + step - 1) step Hstep) as Hb.
  nia.
Qed.

(** With a positive batch size, [batch_create_records] makes one create
    call per payload, in input order, and returns one entry per payload:
    the batches only group the calls. *)
Lemma batch_create_records_run (object_id : string) (records : list value)
    (batch_size : Z) (w : World) :
  0 < batch_size ->
  batch_create_records repr_str session_request object_id records batch_size w
  = (inr (entries_of repr_str records
            (fst (create_replies session_request object_id records w))),
     snd (create_replies session_request object_id records w),
     calls_of object_id records
       (fst (create_replies session_request object_id records w))).
Proof.
  intros Hpos. unfold batch_create_records, bind, lift, py_range.
  destruct (Z.eqb_spec batch_size 0) as [H0|_]; [lia|].
  destruct (Z.ltb_spec 0 batch_size) as [_|H0]; [|lia].
  change (fun i : nat => 0 + Z.of_nat i * batch_size)
    with (fun i : nat => Z.of_nat i * batch_size).
  set (n := Z.to_nat ((Z.of_nat (List.length records) - 0 + batch_size - 1)
                      / batch_size)).
  assert (Hn : (List.length records <= n * Z.to_nat batch_size)%nat).
  { pose proof (range_covers (Z.of_nat (List.length records)) batch_size
                  ltac:(lia) Hpos) as Hc.
    assert (0 <= (Z.of_nat (List.length records) - 0 + batch_size - 1)
                 / batch_size)
      by (apply Z.div_pos; lia).
    subst n. nia. }
  clearbody n.
  rewrite <- (Z2Nat.id batch_size) by lia.
  rewrite create_batches_run. simpl skipn.
  now rewrite (firstn_all2 records Hn).
Qed.

Lemma nth_error_combine_some {A B : Type} (l : list A) (r : list B) :
  List.length l = List.length r ->
  forall k x, nth_error l k = Some x ->
    exists y, nth_error r k = Some y /\ nth_error (combine l r) k = Some (x, y).
Proof.
  revert r. induction l as [|a l IH]; intros [|b r] Hlen k x Hk;
    simpl in *; try discriminate.
  - now destruct k.
  - destruct k as [|k]; simpl in *.
    + injection Hk as <-. eauto.
    + apply IH; auto.
Qed.

(** Position by position: the [k]-th payload gets the [k]-th call and the
    [k]-th entry. *)
Lemma batch_positions (object_id : string) (records : list value)
    (replies : list (result response)) :
  List.length records = List.length replies ->
  forall k payload, nth_error records k = Some payload ->
    exists reply,
      nth_error replies k = Some reply
      /\ nth_error (calls_of object_id records replies) k
         = Some (Call (create_request object_id payload) reply)
      /\ nth_error (entries_of repr_str records replies) k
         = Some (entry_for repr_str payload reply).
Proof.
  intros Hlen k payload Hk.
  destruct (nth_error_combine_some records replies Hlen k payload Hk)
    as (reply & Hr & Hc).
  exists reply. unfold calls_of, entries_of.
  rewrite !nth_error_map, Hc. auto.
Qed.

Lemma entries_of_length (records : list value)
    (replies : list (result response)) :
  List.length records = List.length replies ->
  List.length (entries_of repr_str records replies) = List.length records.
Proof.
  intros Hlen. unfold entries_of.
  rewrite length_map, length_combine, <- Hlen. apply Nat.min_id.
Qed.

(** C4: for every list of create payloads, of any length (zero included),
    and every positive batch size, [batch_create_records] returns a list of
    results of exactly the input's length, and the result at each position
    is the entry of the payload at that position: the [k]-th call made
    carries the [k]-th payload and the [k]-th result is what that call's
    reply amounts to. *)
Theorem batch_create_length_and_order (object_id : string)
    (records : list value) (batch_size : Z) (w : World) :
  0 < batch_size ->
  exists results w1 evs,
    batch_create_records repr_str session_request object_id records
      batch_size w = (inr results, w1, evs)
    /\ List.length results = List.length records
    /\ forall k payload, nth_error records k = Some payload ->
         exists reply,
           nth_error evs k = Some (Call (create_request object_id payload) reply)
           /\ nth_error results k = Some (entry_for repr_str payload reply).
Proof.
  intros Hpos.
  pose proof (create_replies_length object_id records w) as Hlen.
  symmetry in Hlen.
  eexists _, _, _. split; [now apply batch_create_records_run|]. split.
  - now apply entries_of_length.
  - intros k payload Hk.
    destruct (batch_positions object_id records _ Hlen k payload Hk)
      as (reply & _ & Hc & He).
    eauto.
Qed.

(** C5: for every list of payloads and positive batch size, an exception
    raised by the create call at some position is not propagated: the call
    returns normally, every payload (the later ones too) has had its create
    call, in order, the result at a position whose call raised [e] is the
    dict [{'error': str(e), 'payload': payload}] with the payload of that
    position, and every position whose call returned holds the response it
    returned. *)
Theorem batch_create_isolates_errors (object_id : string)
    (records : list value) (batch_size : Z) (w : World) :
  0 < batch_size ->
  exists results w1 replies,
    batch_create_records repr_str session_request object_id records
      batch_size w = (inr results, w1, calls_of object_id records replies)
    /\ List.length replies = List.length records
    /\ (forall k payload reply e,
          nth_error records k = Some payload ->
          nth_error replies k = Some reply ->
          reply_outcome repr_str reply = inl e ->
          nth_error results k
          = Some (VDict [("error", VStr (message e)); ("payload", payload)]))
    /\ (forall k payload reply created,
          nth_error records k = Some payload ->
          nth_error replies k = Some reply ->
          reply_outcome repr_str reply = inr created ->
          nth_error results k = Some created).
Proof.
  intros Hpos.
  pose proof (create_replies_length object_id records w) as Hlen.
  exists (entries_of repr_str records
            (fst (create_replies session_request object_id records w))),
         (snd (create_replies session_request object_id records w)),
         (fst (create_replies session_request object_id records w)).
  split; [now apply batch_create_records_run|]. split; [exact Hlen|].
  symmetry in Hlen.
  split; intros k payload reply x Hk Hr Hout;
    destruct (batch_positions object_id records _ Hlen k payload Hk)
      as (reply' & Hr' & _ & He);
    rewrite Hr in Hr'; injection Hr' as <-;
    rewrite He; unfold entry_for; now rewrite Hout.
Qed.

(** C8: for every list of payloads and every two positive batch sizes,
    [batch_create_records] behaves the same: the same create calls in the
    same order with the same replies, the same result list and the same
    remote state afterwards. *)
Theorem batch_size_is_only_grouping (object_id : string)
    (records : list value) (b1 b2 : Z) (w : World) :
  0 < b1 -> 0 < b2 ->
  batch_create_records repr_str session_request object_id records b1 w
  = batch_create_records repr_str session_request object_id records b2 w.
Proof.
  intros H1 H2. now rewrite !batch_create_records_run.
Qed.

(** C10: outside [batch_size > 0] the guarantees fail.  With batch size 0
    the call raises [ValueError] (from [range], whose step may not be
    zero) before any create call, whatever the input, the empty list
    included; with a negative batch size it returns the empty list without
    any create call, whatever the input; so a batch size for which the
    call returns one result per payload on every input is positive. *)
Theorem batch_size_must_be_positive (object_id : string) (w : World) :
  (forall records,
      batch_create_records repr_str session_request object_id records 0 w
      = (inl (Raise_ ValueError "range() arg 3 must not be zero"), w, []))
  /\ (forall records batch_size,
        batch_size < 0 ->
        batch_create_records repr_str session_request object_id records
          batch_size w = (inr [], w, []))
  /\ (forall batch_size,
        (forall records, exists results w1 evs,
            batch_create_records repr_str session_request object_id records
              batch_size w = (inr results, w1, evs)
            /\ List.length results = List.length records) ->
        0 < batch_size).
Proof.
  assert (Hzero : forall records,
             batch_create_records repr_str session_request object_id records
               0 w
             = (inl (Raise_ ValueError "range() arg 3 must not be zero"), w, []))
    by reflexivity.
  assert (Hneg : forall records batch_size,
             batch_size < 0 ->
             batch_create_records repr_str session_request object_id records
               batch_size w = (inr [], w, [])).
  { intros records batch_size Hlt.
    unfold batch_create_records, bind, lift, py_range.
    destruct (Z.eqb_spec batch_size 0) as [H0|_]; [lia|].
    destruct (Z.ltb_spec 0 batch_size) as [H0|_]; [lia|].
    replace (Z.to_nat ((0 - Z.of_nat (List.length records) - batch_size - 1)
                       / - batch_size)) with O; [reflexivity|].
    assert ((0 - Z.of_nat (List.length records) - batch_size - 1)
            / - batch_size < 1)
      by (apply Z.div_lt_upper_bound; lia).
    lia. }
  split; [exact Hzero|]. split; [exact Hneg|].
  intros batch_size Hall.
  destruct (Z.lt_trichotomy batch_size 0) as [Hlt|[H0|Hgt]]; auto.
  - destruct (Hall [VNone]) as (results & w1 & evs & Hrun & Hlen).
    rewrite (Hneg _ _ Hlt) in Hrun. injection Hrun as <- _ _.
    discriminate.
  - subst batch_size.
    destruct (Hall []) as (results & w1 & evs & Hrun & _).
    rewrite Hzero in Hrun. discriminate.
Qed.

(** ** The error classifier *)

(** C6: for every response handed to it (so for every non-2xx response),
    [_handle_error] raises and never returns; the exception is the one the
    status-code table gives -- 400 validation, 401 unauthorized, 403
    forbidden, 404 not found, 409 conflict, 422 unprocessable, 429 rate
    limited, 500 and above server failure, anything else generic failure,
    each rendered as its exception class and label -- and its message ends
    with the body's [message] entry when the body parses to a dict that has
    one (verbatim when that entry is a string), with the raw body text
    otherwise. *)
Theorem handle_error_raises_by_table (r : response) :
  exists e,
    _handle_error repr_str r = inl e
    /\ kind e = exception_class (kind_of_status (status_code r))
    /\ (forall error_data m,
          json r = inr (VDict error_data) ->
          dict_get "message" error_data = Some m ->
          message e
          = (label (kind_of_status (status_code r)) (status_code r)
               ++ py_str repr_str m)%string)
    /\ (forall error_data s,
          json r = inr (VDict error_data) ->
          dict_get "message" error_data = Some (VStr s) ->
          message e
          = (label (kind_of_status (status_code r)) (status_code r) ++ s)%string)
    /\ (match json r with
        | inr (VDict error_data) => dict_get "message" error_data = None
        | _ => True
        end ->
        message e
        = (label (kind_of_status (status_code r)) (status_code r)
             ++ text r)%string).
Proof.
  assert (Hraise :
            _handle_error repr_str r
            = inl (Raise_ (exception_class (kind_of_status (status_code r)))
                     (label (kind_of_status (status_code r)) (status_code r)
                        ++ py_str repr_str (error_message_of r)))).
  { unfold _handle_error, kind_of_status.
    repeat match goal with
           | |- context [if ?c then _ else _] => destruct c
           end; simpl; rewrite ?string_app_assoc; reflexivity. }
  eexists. split; [exact Hraise|]. simpl. split; [reflexivity|].
  unfold error_message_of, dict_get_default.
  repeat split.
  - intros error_data m Hjson Hm. now rewrite Hjson, Hm.
  - intros error_data s Hjson Hm. now rewrite Hjson, Hm.
  - intros Hnone.
    destruct (json r) as [e|[| | | | |error_data]]; auto.
    now rewrite Hnone.
Qed.

(** ** Pagination *)

Lemma paginator_eq (res : resource) (id : string) :
  paginator repr_str session_request res id = paginate (query_of repr_str session_request res id).
Proof. now destruct res. Qed.

Lemma query_run (res : resource) (id : string) (payload : dict) (w : World) :
  let req := query_request res id payload in
  query_of repr_str session_request res id payload w
  = (reply_outcome repr_str (snd (session_request w req)),
     fst (session_request w req),
     [Call req (snd (session_request w req))]).
Proof.
  destruct res; simpl; unfold list_records, list_entries;
    now rewrite request_run.
Qed.

(** One pass of the loop, spelled out. *)
Lemma loop_step (res : resource) (id : string) (page_size : Z) (fuel : nat)
    (payload : dict) (offset : value) (w : World) :
  let payload1 := dict_set "offset" offset payload in
  let req := query_request res id payload1 in
  let reply := snd (session_request w req) in
  let w1 := fst (session_request w req) in
  paginate_loop (S fuel) (query_of repr_str session_request res id) page_size payload offset w
  = match reply_outcome repr_str reply with
    | inl e => Build_run (Raised e) payload1 w1 [Call req reply]
    | inr response =>
        match handle_page page_size offset response with
        | (inl e, items) =>
            Build_run (Raised e) payload1 w1 (Call req reply :: map Yield items)
        | (inr Break, items) =>
            Build_run StopIteration payload1 w1
              (Call req reply :: map Yield items)
        | (inr (Continue offset'), items) =>
            let rest := paginate_loop fuel (query_of repr_str session_request res id) page_size
                          payload1 offset' w1 in
            Build_run (ended rest) (payload_after rest) (world_after rest)
              (Call req reply :: map Yield items ++ events rest)
        end
    end.
Proof.
  intros payload1 req reply w1. simpl. unfold paginate_pass.
  fold payload1. rewrite query_run. fold req. fold reply. fold w1.
  destruct (reply_outcome repr_str reply) as [e|response]; auto.
  destruct (handle_page page_size offset response) as [[e|[|offset']] items];
    auto.
Qed.

Ltac unroll_pass res id page_size fuel payload offset w :=
  let Hstep := fresh "Hstep" in
  pose proof (loop_step res id page_size fuel payload offset w) as Hstep;
  cbv zeta in Hstep; rewrite Hstep in *; clear Hstep.

(** *** What a page leads to *)

Lemma handle_page_no_data (page_size : Z) (offset : value) (content : dict) :
  dict_get "data" content = None ->
  handle_page page_size offset (VDict content) = (inr Break, []).
Proof.
  intros Hnone. unfold handle_page. simpl. unfold dict_contains.
  now rewrite Hnone.
Qed.

Lemma handle_page_short (page_size : Z) (offset : value) (content : dict)
    (items : list value) :
  dict_get "data" content = Some (VList items) ->
  items = [] \/ Z.of_nat (List.length items) < page_size ->
  handle_page page_size offset (VDict content) = (inr Break, items).
Proof.
  intros Hdata Hshort. unfold handle_page. simpl. unfold dict_contains.
  rewrite Hdata. destruct items as [|x items]; simpl; auto.
  destruct Hshort as [Hnil|Hlt]; [discriminate|]. simpl in Hlt.
  match goal with
  | |- context [?a <? ?b] => destruct (Z.ltb_spec a b) as [_|Hge]
  end; [reflexivity|lia].
Qed.

Lemma handle_page_full (page_size o : Z) (content : dict) (items : list value) :
  dict_get "data" content = Some (VList items) ->
  items <> [] ->
  page_size <= Z.of_nat (List.length items) ->
  handle_page page_size (VInt o) (VDict content)
  = (inr (Continue (VInt (o + page_size))), items).
Proof.
  intros Hdata Hne Hfull. unfold handle_page. simpl. unfold dict_contains.
  rewrite Hdata. destruct items as [|x items]; [contradiction|].
  simpl in *.
  match goal with
  | |- context [?a <? ?b] => destruct (Z.ltb_spec a b) as [Hlt|_]
  end; [lia|reflexivity].
Qed.

(** *** Finding a call in the events of a run *)

Lemma requests_yields (items : list value) : requests (map Yield items) = [].
Proof. induction items; simpl; auto. Qed.

Lemma yielded_yields (items : list value) : yielded (map Yield items) = items.
Proof. induction items; simpl; congruence. Qed.

Lemma requests_app (e1 e2 : list event) :
  requests (e1 ++ e2) = requests e1 ++ requests e2.
Proof.
  induction e1 as [|[req reply|item] e1 IH]; simpl; congruence.
Qed.

Lemma yielded_app (e1 e2 : list event) :
  yielded (e1 ++ e2) = yielded e1 ++ yielded e2.
Proof.
  induction e1 as [|[req reply|item] e1 IH]; simpl; congruence.
Qed.

(** A call found among the events of a page followed by [rest] is the
    page's own call or lies in [rest]. *)
Lemma call_in_page (pre post rest : list event) (req req0 : request)
    (reply reply0 : result response) (items : list value) :
  pre ++ Call req reply :: post = Call req0 reply0 :: map Yield items ++ rest ->
  (pre = [] /\ req = req0 /\ reply = reply0 /\ post = map Yield items ++ rest)
  \/ (exists pre', rest = pre' ++ Call req reply :: post).
Proof.
  destruct pre as [|e pre]; simpl; intros Heq.
  - injection Heq as -> -> ->. now left.
  - right. injection Heq as _ Heq. revert pre Heq.
    induction items as [|item items IH]; simpl; intros pre Heq.
    + now exists pre.
    + destruct pre as [|e' pre]; simpl in Heq; [discriminate|].
      injection Heq as _ Heq. eauto.
Qed.

(** A page after which the loop breaks is the last thing a run does: if the
    events hold a call whose reply amounts to a response on which
    [handle_page] breaks, whatever the offset, then what follows the call is
    that page's items and the generator is exhausted. *)
Lemma loop_stops_at (res : resource) (id : string) (page_size : Z)
    (req : request) (reply : result response) (response : value)
    (items : list value) (post : list event) :
  reply_outcome repr_str reply = inr response ->
  (forall o, handle_page page_size o response = (inr Break, items)) ->
  forall fuel payload offset w pre,
    events (paginate_loop fuel (query_of repr_str session_request res id)
              page_size payload offset w)
    = pre ++ Call req reply :: post ->
    post = map Yield items
    /\ ended (paginate_loop fuel (query_of repr_str session_request res id)
                page_size payload offset w) = StopIteration.
Proof.
  intros Hout Hbreak.
  induction fuel as [|fuel IH]; intros payload offset w pre Hev.
  - simpl in Hev. destruct pre; discriminate.
  - unroll_pass res id page_size fuel payload offset w.
    set (payload1 := dict_set "offset" offset payload) in *.
    set (req0 := query_request res id payload1) in *.
    destruct (session_request w req0) as [w1 reply0]. simpl fst in *.
    simpl snd in *.
    destruct (reply_outcome repr_str reply0) as [e|response0] eqn:Hout0.
    + simpl in Hev. change [Call req0 reply0]
        with (Call req0 reply0 :: map Yield [] ++ []) in Hev.
      symmetry in Hev. apply call_in_page in Hev as [(_ & _ & -> & _)|(pre' & Hrest)].
      * congruence.
      * destruct pre'; discriminate.
    + destruct (handle_page page_size offset response0)
        as [[e|[|offset']] items0] eqn:Hpage; simpl in Hev |- *.
      * rewrite <- (app_nil_r (map Yield items0)) in Hev.
        symmetry in Hev. apply call_in_page in Hev as [(_ & _ & -> & _)|(pre' & Hrest)].
        -- rewrite Hout in Hout0. injection Hout0 as <-.
           rewrite Hbreak in Hpage. discriminate.
        -- destruct pre'; discriminate.
      * rewrite <- (app_nil_r (map Yield items0)) in Hev.
        symmetry in Hev. apply call_in_page in Hev as [(_ & _ & -> & ->)|(pre' & Hrest)].
        -- rewrite Hout in Hout0. injection Hout0 as <-.
           rewrite Hbreak in Hpage. injection Hpage as <-.
           now rewrite app_nil_r.
        -- destruct pre'; discriminate.
      * symmetry in Hev.
        apply call_in_page in Hev as [(_ & _ & -> & _)|(pre' & Hrest)].
        -- rewrite Hout in Hout0. injection Hout0 as <-.
           rewrite Hbreak in Hpage. discriminate.
        -- now apply IH in Hrest.
Qed.

(** C2: for every page fetched by [paginate_records] or [paginate_entries]
    -- a call answered by an [ok] response whose body is a dict with a list
    under [data] -- if the list holds fewer items than [page_size], the
    generator ends right after yielding those items: nothing but their
    yields follows the call, no further request is sent, and the generator
    is exhausted. *)
Theorem short_page_ends_pagination (res : resource) (id : string)
    (payload : option dict) (page_size : Z) (fuel : nat) (w : World)
    (pre post : list event) (req : request) (resp : response)
    (content : dict) (items : list value) :
  events (paginator repr_str session_request res id payload page_size fuel w)
  = pre ++ Call req (inr resp) :: post ->
  ok resp = true ->
  json resp = inr (VDict content) ->
  dict_get "data" content = Some (VList items) ->
  Z.of_nat (List.length items) < page_size ->
  post = map Yield items
  /\ requests post = []
  /\ ended (paginator repr_str session_request res id payload page_size fuel w)
     = StopIteration.
Proof.
  rewrite paginator_eq. unfold paginate.
  intros Hev Hok Hjson Hdata Hshort.
  assert (Hout : reply_outcome repr_str (inr resp) = inr (VDict content))
    by (simpl; now rewrite Hok).
  destruct (loop_stops_at res id page_size req (inr resp) (VDict content)
              items post Hout
              (fun o => handle_page_short page_size o content items Hdata
                          (or_intror Hshort))
              _ _ _ _ _ Hev) as [-> Hend].
  auto using requests_yields.
Qed.

(** C7: for every pagination call, a fetched response -- a call answered by
    an [ok] response whose body is a dict -- that has no [data] entry, or an
    empty list under [data], ends the generator silently: nothing follows
    the call, the generator is exhausted (no exception), and the items
    yielded are those of the earlier pages. *)
Theorem missing_or_empty_data_ends_pagination (res : resource) (id : string)
    (payload : option dict) (page_size : Z) (fuel : nat) (w : World)
    (pre post : list event) (req : request) (resp : response)
    (content : dict) :
  events (paginator repr_str session_request res id payload page_size fuel w)
  = pre ++ Call req (inr resp) :: post ->
  ok resp = true ->
  json resp = inr (VDict content) ->
  dict_get "data" content = None \/ dict_get "data" content = Some (VList []) ->
  post = []
  /\ ended (paginator repr_str session_request res id payload page_size fuel w)
     = StopIteration
  /\ yielded (events (paginator repr_str session_request res id payload
                        page_size fuel w))
     = yielded pre.
Proof.
  rewrite paginator_eq. unfold paginate.
  intros Hev Hok Hjson Hdata.
  assert (Hout : reply_outcome repr_str (inr resp) = inr (VDict content))
    by (simpl; now rewrite Hok).
  assert (Hbreak : forall o,
             handle_page page_size o (VDict content) = (inr Break, [])).
  { intros o. destruct Hdata as [Hnone|Hempty].
    - now apply handle_page_no_data.
    - apply handle_page_short with (1 := Hempty). now left. }
  destruct (loop_stops_at res id page_size req (inr resp) (VDict content)
              [] post Hout Hbreak _ _ _ _ _ Hev) as [-> Hend].
  repeat split; auto.
  rewrite Hev, yielded_app. simpl. now rewrite app_nil_r.
Qed.

(** *** What the loop does to the payload *)

(** The loop writes [offset] and nothing else: any other key reads the same
    in every request sent and in the payload afterwards. *)
Lemma loop_frame (res : resource) (id : string) (page_size : Z) (k : string) :
  k <> "offset" ->
  forall fuel payload offset w,
    dict_get k (payload_after
                  (paginate_loop fuel (query_of repr_str session_request res id)
                     page_size payload offset w))
    = dict_get k payload
    /\ Forall (fun req => dict_get k (body req) = dict_get k payload)
         (requests (events
                      (paginate_loop fuel
                         (query_of repr_str session_request res id)
                         page_size payload offset w))).
Proof.
  intros Hk. induction fuel as [|fuel IH]; intros payload offset w.
  - simpl. auto.
  - unroll_pass res id page_size fuel payload offset w.
    assert (Hset : dict_get k (dict_set "offset" offset payload)
                   = dict_get k payload) by now apply dict_get_set_ne.
    destruct (reply_outcome repr_str _) as [e|response]; simpl.
    + split; auto.
    + destruct (handle_page page_size offset response)
        as [[e|[|offset']] items]; simpl;
        rewrite ?requests_app, ?requests_yields; simpl.
      * split; auto.
      * split; auto.
      * destruct (IH (dict_set "offset" offset payload) offset'
                    (fst (session_request w
                            (query_request res id
                               (dict_set "offset" offset payload)))))
          as [Hafter Hreqs].
        rewrite Hset in Hafter, Hreqs. split; auto.
Qed.

(** Each pass stores the current offset before it fetches. *)
Lemma loop_writes_offset (res : resource) (id : string) (page_size : Z) :
  forall fuel payload offset w,
    Forall (fun req => exists o, dict_get "offset" (body req) = Some o)
      (requests (events
                   (paginate_loop fuel
                      (query_of repr_str session_request res id)
                      page_size payload offset w)))
    /\ (fuel <> O ->
        exists o,
          dict_get "offset"
            (payload_after
               (paginate_loop fuel (query_of repr_str session_request res id)
                  page_size payload offset w)) = Some o).
Proof.
  induction fuel as [|fuel IH]; intros payload offset w.
  - simpl. split; [constructor|congruence].
  - unroll_pass res id page_size fuel payload offset w.
    assert (Hset : exists o, dict_get "offset" (dict_set "offset" offset payload)
                             = Some o)
      by (rewrite dict_get_set_eq; eauto).
    destruct (reply_outcome repr_str _) as [e|response]; simpl.
    + split; auto.
    + destruct (handle_page page_size offset response)
        as [[e|[|offset']] items]; simpl;
        rewrite ?requests_app, ?requests_yields; simpl.
      * split; auto.
      * split; auto.
      * destruct (IH (dict_set "offset" offset payload) offset'
                    (fst (session_request w
                            (query_request res id
                               (dict_set "offset" offset payload)))))
          as [Hreqs Hafter].
        split; [auto|]. intros _. destruct fuel as [|fuel]; auto.
Qed.

(** C9: for every call of [paginate_records] or [paginate_entries] on a
    payload dict the caller supplies, the engine changes that dict -- the
    same object the caller holds -- at its [limit] and [offset] keys only:
    every other key reads the same in every request sent and in the dict
    afterwards; [limit] is set to [page_size] when absent and keeps its
    value otherwise; [offset] is written by each pass before it fetches. *)
Theorem payload_changes_only_limit_and_offset (res : resource) (id : string)
    (payload : dict) (page_size : Z) (fuel : nat) (w : World) :
  let r := paginator repr_str session_request res id (Some payload) page_size
             fuel w in
  (forall k, k <> "limit" -> k <> "offset" ->
     dict_get k (payload_after r) = dict_get k payload
     /\ Forall (fun req => dict_get k (body req) = dict_get k payload)
          (requests (events r)))
  /\ dict_get "limit" (payload_after r)
     = Some (dict_get_default "limit" (VInt page_size) payload)
  /\ Forall (fun req => exists o, dict_get "offset" (body req) = Some o)
       (requests (events r))
  /\ (fuel <> O -> exists o, dict_get "offset" (payload_after r) = Some o).
Proof.
  intros r. subst r. rewrite paginator_eq. unfold paginate.
  split; [|split].
  - intros k Hlimit Hoffset.
    destruct (loop_frame res id page_size k Hoffset fuel
                (dict_setdefault "limit" (VInt page_size) payload)
                (dict_get_default "offset" (VInt 0)
                   (dict_setdefault "limit" (VInt page_size) payload)) w)
      as [Hafter Hreqs].
    now rewrite dict_get_setdefault_ne in Hafter, Hreqs.
  - destruct (loop_frame res id page_size "limit" ltac:(discriminate) fuel
                (dict_setdefault "limit" (VInt page_size) payload)
                (dict_get_default "offset" (VInt 0)
                   (dict_setdefault "limit" (VInt page_size) payload)) w)
      as [Hafter _].
    now rewrite dict_get_setdefault_eq in Hafter.
  - apply loop_writes_offset.
Qed.

(** *** How the offset moves *)

(** A pass starts by sending the payload with the current offset in it. *)
Lemma loop_head (res : resource) (id : string) (page_size : Z) (fuel : nat)
    (payload : dict) (offset : value) (w : World) :
  exists reply tail,
    events (paginate_loop (S fuel) (query_of repr_str session_request res id)
              page_size payload offset w)
    = Call (query_request res id (dict_set "offset" offset payload)) reply
        :: tail.
Proof.
  unroll_pass res id page_size fuel payload offset w.
  destruct (reply_outcome repr_str _) as [e|response]; simpl; eauto.
  destruct (handle_page page_size offset response) as [[e|[|offset']] items];
    simpl; eauto.
Qed.

(** After a page that lets the loop run on with the offset [o'], the next
    thing the run does, once the page's items are yielded, is a request
    that carries [o']. *)
Lemma loop_advances (res : resource) (id : string) (page_size : Z)
    (req : request) (reply : result response) (response : value)
    (items : list value) (o o' : value) (post : list event) :
  reply_outcome repr_str reply = inr response ->
  dict_get "offset" (body req) = Some o ->
  handle_page page_size o response = (inr (Continue o'), items) ->
  forall fuel payload offset w pre,
    events (paginate_loop fuel (query_of repr_str session_request res id)
              page_size payload offset w)
    = pre ++ Call req reply :: post ->
    (post = map Yield items
     /\ ended (paginate_loop fuel (query_of repr_str session_request res id)
                 page_size payload offset w) = Running)
    \/ (exists req' reply' post',
           post = map Yield items ++ Call req' reply' :: post'
           /\ dict_get "offset" (body req') = Some o').
Proof.
  intros Hout Hoff Hnext.
  induction fuel as [|fuel IH]; intros payload offset w pre Hev.
  - simpl in Hev. destruct pre; discriminate.
  - unroll_pass res id page_size fuel payload offset w.
    set (payload1 := dict_set "offset" offset payload) in *.
    set (req0 := query_request res id payload1) in *.
    assert (Hoff0 : dict_get "offset" (body req0) = Some offset)
      by apply dict_get_set_eq.
    destruct (session_request w req0) as [w1 reply0]. simpl fst in *.
    simpl snd in *.
    destruct (reply_outcome repr_str reply0) as [e|response0] eqn:Hout0.
    + simpl in Hev. change [Call req0 reply0]
        with (Call req0 reply0 :: map Yield [] ++ []) in Hev.
      symmetry in Hev.
      apply call_in_page in Hev as [(_ & _ & -> & _)|(pre' & Hrest)].
      * congruence.
      * destruct pre'; discriminate.
    + destruct (handle_page page_size offset response0)
        as [[e|[|offset']] items0] eqn:Hpage; simpl in Hev |- *.
      * rewrite <- (app_nil_r (map Yield items0)) in Hev. symmetry in Hev.
        apply call_in_page in Hev as [(_ & -> & -> & _)|(pre' & Hrest)].
        -- rewrite Hout in Hout0. injection Hout0 as <-.
           rewrite Hoff in Hoff0. injection Hoff0 as <-. congruence.
        -- destruct pre'; discriminate.
      * rewrite <- (app_nil_r (map Yield items0)) in Hev. symmetry in Hev.
        apply call_in_page in Hev as [(_ & -> & -> & _)|(pre' & Hrest)].
        -- rewrite Hout in Hout0. injection Hout0 as <-.
           rewrite Hoff in Hoff0. injection Hoff0 as <-. congruence.
        -- destruct pre'; discriminate.
      * symmetry in Hev.
        apply call_in_page in Hev as [(_ & -> & -> & ->)|(pre' & Hrest)].
        -- rewrite Hout in Hout0. injection Hout0 as <-.
           rewrite Hoff in Hoff0. injection Hoff0 as <-.
           rewrite Hnext in Hpage. injection Hpage as <- <-.
           destruct fuel as [|fuel].
           ++ left. simpl. now rewrite app_nil_r.
           ++ right.
              destruct (loop_head res id page_size fuel payload1 o' w1)
                as (reply1 & tail & Hhead).
              rewrite Hhead. eexists _, _, _. split; [reflexivity|].
              apply dict_get_set_eq.
        -- now apply IH in Hrest.
Qed.

(** C1 (amended): for every call of [paginate_records] or
    [paginate_entries], the engine sets [limit] to [page_size] at the start
    only when the payload defines none -- a [limit] the payload already
    defines is kept, and sent unchanged with every request; and when the
    engine has set the limit, after each page whose item count is not short
    it moves [offset] on by that limit before the next fetch: once the
    page's items are yielded, the next request carries the advanced offset
    (unless the observation of the run stops there). *)
Theorem limit_set_if_absent_and_offset_advances (res : resource) (id : string)
    (payload : option dict) (page_size : Z) (fuel : nat) (w : World) :
  let given := match payload with None => [] | Some p => p end in
  let r := paginator repr_str session_request res id payload page_size fuel w in
  Forall (fun req =>
            dict_get "limit" (body req)
            = Some (dict_get_default "limit" (VInt page_size) given))
    (requests (events r))
  /\ dict_get "limit" (payload_after r)
     = Some (dict_get_default "limit" (VInt page_size) given)
  /\ (dict_get "limit" given = None ->
      0 < page_size ->
      forall pre post req resp content items o,
        events r = pre ++ Call req (inr resp) :: post ->
        ok resp = true ->
        json resp = inr (VDict content) ->
        dict_get "data" content = Some (VList items) ->
        page_size <= Z.of_nat (List.length items) ->
        dict_get "offset" (body req) = Some (VInt o) ->
        dict_get "limit" (body req) = Some (VInt page_size)
        /\ ((post = map Yield items /\ ended r = Running)
            \/ exists req' reply' post',
                post = map Yield items ++ Call req' reply' :: post'
                /\ dict_get "offset" (body req') = Some (VInt (o + page_size)))).
Proof.
  intros given r. subst r. rewrite paginator_eq. unfold paginate. fold given.
  set (start := dict_setdefault "limit" (VInt page_size) given).
  set (offset := dict_get_default "offset" (VInt 0) start).
  destruct (loop_frame res id page_size "limit" ltac:(discriminate) fuel
              start offset w) as [Hafter Hreqs].
  unfold start in Hafter at 2. unfold start in Hreqs at 1.
  rewrite dict_get_setdefault_eq in Hafter, Hreqs.
  split; [exact Hreqs|]. split; [exact Hafter|].
  intros Hnone Hpos pre post req resp content items o Hev Hok Hjson Hdata
    Hfull Hoff.
  split.
  - rewrite Forall_forall in Hreqs.
    rewrite (Hreqs req).
    + unfold dict_get_default. now rewrite Hnone.
    + rewrite Hev, requests_app. apply in_or_app. right. now left.
  - assert (Hout : reply_outcome repr_str (inr resp) = inr (VDict content))
      by (simpl; now rewrite Hok).
    assert (Hne : items <> []) by (intros ->; simpl in Hfull; lia).
    exact (loop_advances res id page_size req (inr resp) (VDict content)
             items (VInt o) (VInt (o + page_size)) post Hout Hoff
             (handle_page_full page_size o content items Hdata Hne Hfull)
             fuel start offset w pre Hev).
Qed.

(** *** Paging through a stable result set *)

Lemma div_after_page (len page_size : Z) :
  0 < page_size -> (len - page_size) / page_size = len / page_size - 1.
Proof.
  intros Hpos.
  replace (len - page_size) with (len + (-1) * page_size) by lia.
  rewrite Z.div_add by lia. lia.
Qed.

(** Against a session that serves [db] consistently, with the payload's
    limit equal to [page_size], the loop started at offset [o] yields the
    items of [db] from [o] on, in order, and stops. *)
Lemma loop_serves (res : resource) (id : string) (page_size : Z)
    (db : list value) :
  serves_pages session_request res id db ->
  0 < page_size ->
  forall fuel payload o w,
    dict_get "limit" payload = Some (VInt page_size) ->
    0 <= o ->
    Z.of_nat (List.length (skipn (Z.to_nat o) db)) / page_size + 1
    <= Z.of_nat fuel ->
    let r := paginate_loop fuel (query_of repr_str session_request res id)
               page_size payload (VInt o) w in
    ended r = StopIteration
    /\ yielded (events r) = skipn (Z.to_nat o) db
    /\ Z.of_nat (List.length (requests (events r)))
       = Z.of_nat (List.length (skipn (Z.to_nat o) db)) / page_size + 1.
Proof.
  intros Hserves Hpos.
  induction fuel as [|fuel IH]; intros payload o w Hlimit Ho Hfuel r.
  - assert (0 <= Z.of_nat (List.length (skipn (Z.to_nat o) db)) / page_size)
      by (apply Z.div_pos; lia).
    lia.
  - subst r.
    unroll_pass res id page_size fuel payload (VInt o) w.
    set (payload1 := dict_set "offset" (VInt o) payload) in *.
    set (req0 := query_request res id payload1) in *.
    assert (Hlimit1 : dict_get "limit" payload1 = Some (VInt page_size))
      by (unfold payload1; rewrite dict_get_set_ne; [auto|discriminate]).
    assert (Hoffset1 : dict_get "offset" payload1 = Some (VInt o))
      by apply dict_get_set_eq.
    destruct (Hserves w payload1 page_size o Hlimit1 Hoffset1 Hpos Ho)
      as (w1 & resp & content & Hreply & Hok & Hjson & Hdata).
    fold req0 in Hreply.
    rewrite Hreply. simpl fst. simpl snd. simpl reply_outcome.
    rewrite Hok, Hjson.
    set (remaining := skipn (Z.to_nat o) db) in *.
    set (page := firstn (Z.to_nat page_size) remaining) in *.
    destruct (Z.lt_ge_cases (Z.of_nat (List.length remaining)) page_size)
      as [Hshort|Hfull].
    + assert (Hpage : page = remaining)
        by (apply firstn_all2; lia).
      rewrite Hpage in Hdata.
      rewrite (handle_page_short page_size (VInt o) content remaining Hdata
                 (or_intror Hshort)).
      simpl. rewrite yielded_yields, requests_yields.
      rewrite Z.div_small by lia. auto.
    + assert (Hlen : List.length page = Z.to_nat page_size)
        by (unfold page; rewrite length_firstn; lia).
      assert (Hne : page <> [])
        by (intros Hnil; rewrite Hnil in Hlen; simpl in Hlen; lia).
      rewrite (handle_page_full page_size o content page Hdata Hne
                 ltac:(lia)).
      assert (Hrest : skipn (Z.to_nat (o + page_size)) db
                      = skipn (Z.to_nat page_size) remaining).
      { unfold remaining. rewrite skipn_skipn. f_equal. lia. }
      assert (Hrestlen : Z.of_nat (List.length
                                     (skipn (Z.to_nat (o + page_size)) db))
                         = Z.of_nat (List.length remaining) - page_size)
        by (rewrite Hrest, length_skipn; lia).
      destruct (IH payload1 (o + page_size) w1 Hlimit1 ltac:(lia)) as
        (Hend & Hyield & Hcount).
      { rewrite Hrestlen, div_after_page by lia. lia. }
      cbv zeta. simpl.
      rewrite yielded_app, requests_app, yielded_yields, requests_yields.
      simpl. rewrite Hend, Hyield, Hrest. fold page.
      split; [reflexivity|]. split; [apply firstn_skipn|].
      rewrite Hrestlen, div_after_page in Hcount by lia.
      lia.
Qed.

(** C3 (amended): for every result set [db] of N items that the session
    serves consistently in pages of the requested limit, every positive
    page size and every payload whose limit in force is the page size (it
    defines none, or that one), the generator consumed to its end yields
    exactly the items of [db] from the starting offset on -- all N when the
    payload gives no offset, or 0 -- in server order, each once, and is
    exhausted after one request per full page plus one; for N = 7 and page
    size 5 that is 7 items from 2 requests. *)
Theorem pagination_is_complete (res : resource) (id : string)
    (payload : option dict) (page_size : Z) (db : list value) (fuel : nat)
    (w : World) (start : Z) :
  let given := match payload with None => [] | Some p => p end in
  let served := skipn (Z.to_nat start) db in
  serves_pages session_request res id db ->
  0 < page_size ->
  dict_get_default "limit" (VInt page_size) given = VInt page_size ->
  dict_get_default "offset" (VInt 0) given = VInt start ->
  0 <= start ->
  Z.of_nat (List.length served) / page_size + 1 <= Z.of_nat fuel ->
  let r := paginator repr_str session_request res id payload page_size fuel w in
  ended r = StopIteration
  /\ yielded (events r) = served
  /\ Z.of_nat (List.length (requests (events r)))
     = Z.of_nat (List.length served) / page_size + 1.
Proof.
  intros given served Hserves Hpos Hlimit Hoffset Hstart0 Hfuel r. subst r.
  rewrite paginator_eq. unfold paginate. fold given.
  set (base := dict_setdefault "limit" (VInt page_size) given).
  assert (Hbase : dict_get "limit" base = Some (VInt page_size)).
  { unfold base. rewrite dict_get_setdefault_eq. now rewrite Hlimit. }
  assert (Hfrom : dict_get_default "offset" (VInt 0) base = VInt start).
  { unfold dict_get_default, base in *.
    rewrite dict_get_setdefault_ne by discriminate. exact Hoffset. }
  rewrite Hfrom.
  exact (loop_serves res id page_size db Hserves Hpos fuel base start w Hbase
           Hstart0 Hfuel).
Qed.

(** *** Errors of a fetch *)

(** A call whose reply makes [_request] raise is the last thing a run does,
    and the run ends with that exception. *)
Lemma loop_raises_at (res : resource) (id : string) (page_size : Z)
    (req : request) (reply : result response) (e : exn) (post : list event) :
  reply_outcome repr_str reply = inl e ->
  forall fuel payload offset w pre,
    events (paginate_loop fuel (query_of repr_str session_request res id)
              page_size payload offset w)
    = pre ++ Call req reply :: post ->
    post = []
    /\ ended (paginate_loop fuel (query_of repr_str session_request res id)
                page_size payload offset w) = Raised e.
Proof.
  intros Hout.
  induction fuel as [|fuel IH]; intros payload offset w pre Hev.
  - simpl in Hev. destruct pre; discriminate.
  - unroll_pass res id page_size fuel payload offset w.
    set (payload1 := dict_set "offset" offset payload) in *.
    set (req0 := query_request res id payload1) in *.
    destruct (session_request w req0) as [w1 reply0]. simpl fst in *.
    simpl snd in *.
    destruct (reply_outcome repr_str reply0) as [e0|response0] eqn:Hout0.
    + simpl in Hev |- *. change [Call req0 reply0]
        with (Call req0 reply0 :: map Yield [] ++ []) in Hev.
      symmetry in Hev.
      apply call_in_page in Hev as [(_ & _ & -> & ->)|(pre' & Hrest)].
      * split; [reflexivity|congruence].
      * destruct pre'; discriminate.
    + destruct (handle_page page_size offset response0)
        as [[e0|[|offset']] items0] eqn:Hpage; simpl in Hev |- *.
      * rewrite <- (app_nil_r (map Yield items0)) in Hev. symmetry in Hev.
        apply call_in_page in Hev as [(_ & _ & -> & _)|(pre' & Hrest)];
          [congruence|destruct pre'; discriminate].
      * rewrite <- (app_nil_r (map Yield items0)) in Hev. symmetry in Hev.
        apply call_in_page in Hev as [(_ & _ & -> & _)|(pre' & Hrest)];
          [congruence|destruct pre'; discriminate].
      * symmetry in Hev.
        apply call_in_page in Hev as [(_ & _ & -> & _)|(pre' & Hrest)];
          [congruence|now apply IH in Hrest].
Qed.

(** An error of the underlying query call reaches the consumer where the
    page would have been fetched: the call that raised [e] -- the session
    raised, or answered with a response that is not [ok] -- is the last
    event of the run, the run ends with [e], and what was yielded before
    stays yielded. *)
Theorem fetch_error_propagates (res : resource) (id : string)
    (payload : option dict) (page_size : Z) (fuel : nat) (w : World)
    (pre post : list event) (req : request) (reply : result response)
    (e : exn) :
  events (paginator repr_str session_request res id payload page_size fuel w)
  = pre ++ Call req reply :: post ->
  reply_outcome repr_str reply = inl e ->
  post = []
  /\ ended (paginator repr_str session_request res id payload page_size fuel w)
     = Raised e
  /\ yielded (events (paginator repr_str session_request res id payload
                        page_size fuel w))
     = yielded pre.
Proof.
  rewrite paginator_eq. unfold paginate. intros Hev Hout.
  destruct (loop_raises_at res id page_size req reply e post Hout _ _ _ _ _ Hev)
    as [-> Hend].
  repeat split; auto.
  rewrite Hev, yielded_app. simpl. now rewrite app_nil_r.
Qed.
End Properties.

(** * More properties: requests, object helpers, composition *)

Lemma dict_set_set (k : string) (v v' : value) (d : dict) :
  dict_set k v (dict_set k v' d) = dict_set k v d.
Proof.
  induction d as [|[k0 v0] d IH]; simpl.
  - now rewrite String.eqb_refl.
  - destruct (String.eqb k k0) eqn:E; simpl; rewrite E; congruence.
Qed.

Section MoreProperties.
Variable repr_str : string -> string.
Context {World : Type}.
Variable session_request : World -> request -> World * result response.

(** ** The request primitive *)

Lemma handle_error_raises (r : response) :
  _handle_error repr_str r
  = inl (Raise_ (exception_class (kind_of_status (status_code r)))
           (label (kind_of_status (status_code r)) (status_code r)
              ++ py_str repr_str (error_message_of r))).
Proof.
  unfold _handle_error, kind_of_status.
  repeat match goal with
         | |- context [if ?c then _ else _] => destruct c
         end; simpl; rewrite ?string_app_assoc; reflexivity.
Qed.

(** Every call of [_request] sends exactly one request -- the method, the
    base URL followed by the path, the keyword arguments -- and never
    retries.  An exception of the session propagates as it is; a response
    that is not [ok] never gives a return value, even when its body parses:
    the call raises the exception of the status-code table; an [ok]
    response gives whatever [response.json()] gives, its parse error
    included. *)
Theorem request_sends_once_and_raises_on_failure (m p : string) (kw : kwargs)
    (w : World) :
  let req := {| method := m; url := base_url ++ p; args := kw |} in
  let reply := snd (session_request w req) in
  exists out,
    _request repr_str session_request m p kw w
    = (out, fst (session_request w req), [Call req reply])
    /\ (forall e, reply = inl e -> out = inl e)
    /\ (forall resp, reply = inr resp -> ok resp = false ->
          exists e,
            out = inl e
            /\ kind e = exception_class (kind_of_status (status_code resp)))
    /\ (forall resp, reply = inr resp -> ok resp = true -> out = json resp).
Proof.
  intros req reply. eexists. split; [apply request_run|].
  fold req. fold reply. repeat split.
  - now intros e ->.
  - intros resp -> Hok. simpl. rewrite Hok, handle_error_raises. eauto.
  - intros resp -> Hok. simpl. now rewrite Hok.
Qed.

(** What the class of the exception tells a caller that catches by class,
    as the example scripts do: [_handle_error] raises [FileNotFoundError]
    exactly for status 404, [PermissionError] exactly for 401 and 403,
    [ValueError] exactly for 400, 409 and 422, [RuntimeError] exactly for
    429 and for 500 and above, and plain [Exception] exactly for the
    rest. *)
Theorem exception_class_reveals_status (r : response) :
  exists e,
    _handle_error repr_str r = inl e
    /\ (kind e = FileNotFoundError <-> status_code r = 404)
    /\ (kind e = PermissionError <-> status_code r = 401 \/ status_code r = 403)
    /\ (kind e = ValueError
        <-> status_code r = 400 \/ status_code r = 409 \/ status_code r = 422)
    /\ (kind e = RuntimeError <-> status_code r = 429 \/ 500 <= status_code r)
    /\ (kind e = Exception
        <-> status_code r < 500
            /\ ~ In (status_code r) [400; 401; 403; 404; 409; 422; 429]).
Proof.
  eexists. split; [apply handle_error_raises|]. simpl.
  unfold kind_of_status.
  repeat match goal with
         | |- context [?a =? ?b] => destruct (Z.eqb_spec a b)
         | |- context [?a <=? ?b] => destruct (Z.leb_spec a b)
         end; simpl; repeat split;
    try discriminate; try lia; intuition (try discriminate; try lia).
Qed.

(** ** Custom objects *)

Lemma custom_objects_of_dicts (objs : list value) :
  forallb is_dict objs = true ->
  custom_objects objs = inr (filter is_custom objs).
Proof.
  induction objs as [|obj objs IH]; simpl; intros Hall; auto.
  apply andb_prop in Hall as [Hobj Hrest].
  rewrite (IH Hrest).
  destruct obj as [| | | | |fields]; try discriminate. simpl.
  unfold dict_get_default.
  destruct (dict_get "is_system" fields) as [[|[|]| | | |]|]; reflexivity.
Qed.

Lemma custom_objects_of_other (objs : list value) :
  forallb is_dict objs = false ->
  exists e, custom_objects objs = inl e
            /\ kind e = LibraryError "AttributeError".
Proof.
  induction objs as [|obj objs IH]; simpl; intros Hsome; [discriminate|].
  destruct obj as [| | | | |fields]; simpl; eauto.
  destruct (IH Hsome) as (e & -> & Hkind). simpl. eauto.
Qed.

(** [list_custom_objects] sends one request, [GET /objects], and
    - passes an exception of that call on;
    - returns the response as it is when it has no [data];
    - otherwise returns a dict with the single key [data], holding the
      objects whose [is_system] is [False], in the order of the response:
      an object without [is_system], or with any other value under it, is
      left out, and so is every other key of the response;
    - raises [AttributeError] when an element under [data] is not a dict. *)
Theorem list_custom_objects_keeps_custom_only (w : World) :
  let reply := snd (session_request w objects_request) in
  exists out,
    list_custom_objects repr_str session_request w
    = (out, fst (session_request w objects_request),
       [Call objects_request reply])
    /\ (forall e, reply_outcome repr_str reply = inl e -> out = inl e)
    /\ (forall objects,
          reply_outcome repr_str reply = inr objects ->
          py_contains "data" objects = inr false ->
          out = inr objects)
    /\ (forall content objs,
          reply_outcome repr_str reply = inr (VDict content) ->
          dict_get "data" content = Some (VList objs) ->
          forallb is_dict objs = true ->
          out = inr (VDict [("data", VList (filter is_custom objs))]))
    /\ (forall content objs,
          reply_outcome repr_str reply = inr (VDict content) ->
          dict_get "data" content = Some (VList objs) ->
          forallb is_dict objs = false ->
          exists e, out = inl e /\ kind e = LibraryError "AttributeError").
Proof.
  intros reply. unfold list_custom_objects, list_objects, bind.
  rewrite request_run. fold objects_request. fold reply.
  destruct (reply_outcome repr_str reply) as [e|objects].
  - eexists. split; [reflexivity|].
    split; [|split; [|split]]; try (intros; discriminate).
    intros e' Heq. now inversion Heq.
  - unfold lift. simpl.
    destruct (py_contains "data" objects) as [e|[|]] eqn:Hin;
      simpl; eexists; (split; [reflexivity|]);
      (split; [intros; discriminate|split; [|split]]).
    + intros objects' Heq Hno. inversion Heq. subst. congruence.
    + intros content objs Heq Hdata _. inversion Heq. subst. discriminate.
    + intros content objs Heq Hdata _. inversion Heq. subst. discriminate.
    + intros objects' Heq Hno. inversion Heq. subst. congruence.
    + intros content objs Heq Hdata Hdicts. inversion Heq. subst. simpl.
      rewrite Hdata. simpl. now rewrite custom_objects_of_dicts.
    + intros content objs Heq Hdata Hother. inversion Heq. subst. simpl.
      rewrite Hdata. simpl.
      destruct (custom_objects_of_other objs Hother) as (e & -> & Hkind).
      simpl. eauto.
    + intros objects' Heq _. now inversion Heq.
    + intros content objs Heq Hdata _. inversion Heq. subst. simpl in Hin.
      unfold dict_contains in Hin. rewrite Hdata in Hin. discriminate.
    + intros content objs Heq Hdata _. inversion Heq. subst. simpl in Hin.
      unfold dict_contains in Hin. rewrite Hdata in Hin. discriminate.
Qed.

(** ** The schema of an object *)

Lemma dict_get_nonempty (k : string) (d : dict) (v : value) :
  dict_get k d = Some v -> py_bool (VDict d) = true.
Proof. destruct d; simpl; [discriminate|reflexivity]. Qed.

(** When the object call fails, or its response is falsy or has no [data],
    [get_object_schema] sends that one request only and passes the
    exception, or the response as it is, on: attributes are never
    requested. *)
Theorem get_object_schema_without_data (object_id : string) (w : World) :
  let req := object_request object_id in
  let reply := snd (session_request w req) in
  let w1 := fst (session_request w req) in
  (forall e,
      reply_outcome repr_str reply = inl e ->
      get_object_schema repr_str session_request object_id w
      = (inl e, w1, [Call req reply]))
  /\ (forall object_data,
        reply_outcome repr_str reply = inr object_data ->
        py_bool object_data = false
        \/ py_contains "data" object_data = inr false ->
        get_object_schema repr_str session_request object_id w
        = (inr object_data, w1, [Call req reply])).
Proof.
  intros req reply w1.
  unfold get_object_schema, get_object, bind.
  rewrite request_run. fold (object_request object_id). fold req.
  fold reply. fold w1.
  split.
  - now intros e ->.
  - intros object_data -> Hskip. unfold lift.
    destruct Hskip as [Hfalsy|Hnodata].
    + now rewrite Hfalsy.
    + rewrite Hnodata. now destruct (py_bool object_data).
Qed.

(** When the object response is a dict with a [data] entry,
    [get_object_schema] sends a second request, [GET
    /objects/{id}/attributes] with empty query parameters, and then
    - passes an exception of that call on;
    - with [data] a dict and the attributes response a dict, returns the
      object response with [attributes] under [data] set to the attributes
      response's [data] (the empty list when it has none): every other key
      of the response and of its [data] keeps its value;
    - raises [TypeError] when [data] is not a dict, the second request
      already sent;
    - raises [AttributeError] when the attributes response is not a
      dict. *)
Theorem get_object_schema_attaches_attributes (object_id : string) (w : World)
    (d : dict) (data : value) :
  let req1 := object_request object_id in
  let reply1 := snd (session_request w req1) in
  let w1 := fst (session_request w req1) in
  let req2 := attributes_request object_id in
  let reply2 := snd (session_request w1 req2) in
  let w2 := fst (session_request w1 req2) in
  reply_outcome repr_str reply1 = inr (VDict d) ->
  dict_get "data" d = Some data ->
  exists out,
    get_object_schema repr_str session_request object_id w
    = (out, w2, [Call req1 reply1; Call req2 reply2])
    /\ (forall e, reply_outcome repr_str reply2 = inl e -> out = inl e)
    /\ (forall attrs inner,
          reply_outcome repr_str reply2 = inr (VDict attrs) ->
          data = VDict inner ->
          let listed := dict_get_default "data" (VList []) attrs in
          let inner1 := dict_set "attributes" listed inner in
          let schema := dict_set "data" (VDict inner1) d in
          out = inr (VDict schema)
          /\ dict_get "data" schema = Some (VDict inner1)
          /\ dict_get "attributes" inner1 = Some listed
          /\ (forall k, k <> "attributes" -> dict_get k inner1 = dict_get k inner)
          /\ (forall k, k <> "data" -> dict_get k schema = dict_get k d))
    /\ (forall attrs,
          reply_outcome repr_str reply2 = inr (VDict attrs) ->
          is_dict data = false ->
          exists e, out = inl e /\ kind e = TypeError)
    /\ (forall attributes,
          reply_outcome repr_str reply2 = inr attributes ->
          is_dict attributes = false ->
          exists e, out = inl e /\ kind e = LibraryError "AttributeError").
Proof.
  intros req1 reply1 w1 req2 reply2 w2 Hout1 Hdata.
  unfold get_object_schema, get_object, list_attributes, bind.
  rewrite request_run. fold (object_request object_id). fold req1.
  fold reply1. fold w1. rewrite Hout1. unfold lift.
  rewrite (dict_get_nonempty "data" d data Hdata).
  simpl py_contains. unfold dict_contains. rewrite Hdata.
  rewrite request_run.
  change {| method := "GET";
            url := base_url ++ "/" ++ "objects" ++ "/" ++ object_id
                   ++ "/attributes";
            args := Params (VDict []) |} with req2.
  fold reply2. fold w2.
  destruct (reply_outcome repr_str reply2) as [e|attributes] eqn:Hout2.
  - eexists. split; [reflexivity|].
    split; [|split; [|split]]; try (intros; discriminate).
    intros e' Heq. now inversion Heq.
  - simpl. unfold dict_contains. rewrite !Hdata. simpl.
    eexists. split; [reflexivity|].
    split; [intros; discriminate|]. split; [|split].
    + intros attrs inner Heq ->. cbv zeta.
      inversion Heq. subst attributes. simpl.
      split; [reflexivity|]. split; [apply dict_get_set_eq|].
      split; [apply dict_get_set_eq|].
      split; intros k Hk; now apply dict_get_set_ne.
    + intros attrs Heq Hnot. inversion Heq. subst attributes. simpl.
      destruct data as [| | | | |inner]; try discriminate; simpl; eauto.
    + intros attributes' Heq Hnot. inversion Heq. subst attributes'.
      destruct attributes as [| | | | |attrs]; try discriminate; simpl; eauto.
Qed.

(** The way [examples/objects/custom_objects.py] reads the attributes off
    a schema does not fit what [get_object_schema] stores: the schema holds
    the attribute list itself under [data.attributes], so whenever that
    list was attached and is not a dict (a list, as the API answers, or the
    empty list of an answer without [data]), the script's
    [.get('data', [])] on it raises [AttributeError]. *)
Theorem schema_attributes_of_attached_list (d inner attrs : dict) :
  let listed := dict_get_default "data" (VList []) attrs in
  let schema :=
    VDict (dict_set "data" (VDict (dict_set "attributes" listed inner)) d) in
  is_dict listed = false ->
  exists e,
    schema_attributes schema = inl e
    /\ kind e = LibraryError "AttributeError".
Proof.
  intros listed schema Hlist. unfold schema_attributes, schema. simpl.
  unfold dict_contains. rewrite !dict_get_set_eq. simpl.
  unfold dict_contains. rewrite !dict_get_set_eq. simpl.
  destruct listed as [| | | | |fields]; try discriminate; simpl; eauto.
Qed.

(** ** Batches compose *)

(** Creating the records of two lists in one call is creating the first
    list and then, from the remote state that leaves, the second: the
    results, the calls and the remote state are those of the two calls put
    end to end, whatever the (positive) batch sizes. *)
Theorem batch_create_concatenates (object_id : string)
    (l1 l2 : list value) (b b1 b2 : Z) (w : World) :
  0 < b -> 0 < b1 -> 0 < b2 ->
  exists res1 w1 ev1 res2 w2 ev2,
    batch_create_records repr_str session_request object_id l1 b1 w
    = (inr res1, w1, ev1)
    /\ batch_create_records repr_str session_request object_id l2 b2 w1
       = (inr res2, w2, ev2)
    /\ batch_create_records repr_str session_request object_id (l1 ++ l2) b w
       = (inr (res1 ++ res2), w2, ev1 ++ ev2).
Proof.
  intros Hb Hb1 Hb2.
  rewrite !(batch_create_records_run repr_str session_request) by assumption.
  eexists _, _, _, _, _, _. split; [reflexivity|]. split.
  - rewrite (batch_create_records_run repr_str session_request) by assumption.
    reflexivity.
  - rewrite create_replies_app. simpl fst. simpl snd.
    rewrite (entries_of_app repr_str), calls_of_app
      by (symmetry; apply create_replies_length).
    reflexivity.
Qed.

(** ** The shape of a pagination run *)

Lemma handle_page_items (page_size : Z) (offset response : value) :
  snd (handle_page page_size offset response) = page_items response.
Proof.
  unfold handle_page, page_items.
  destruct (py_contains "data" response) as [e|[|]]; auto.
  destruct (py_getitem response "data") as [e|records]; auto.
  destruct (py_bool records); auto. simpl.
  destruct (py_iter records) as [e|items]; auto.
  destruct (py_len records) as [e|n]; auto.
  destruct (n <? page_size); auto.
  destruct (py_iadd offset page_size); auto.
Qed.

Lemma handle_page_continue (page_size : Z) (offset response offset' : value)
    (items : list value) :
  handle_page page_size offset response = (inr (Continue offset'), items) ->
  py_iadd offset page_size = inr offset'.
Proof.
  unfold handle_page.
  destruct (py_contains "data" response) as [e|[|]]; try discriminate.
  destruct (py_getitem response "data") as [e|records]; try discriminate.
  destruct (py_bool records); simpl; try discriminate.
  destruct (py_iter records) as [e|items0]; try discriminate.
  destruct (py_len records) as [e|n]; try discriminate.
  destruct (n <? page_size); try discriminate.
  destruct (py_iadd offset page_size); try discriminate.
  intros Heq. inversion Heq. reflexivity.
Qed.

Lemma handle_page_full_list (page_size : Z) (offset : value) (content : dict)
    (items : list value) :
  dict_get "data" content = Some (VList items) ->
  items <> [] ->
  page_size <= Z.of_nat (List.length items) ->
  handle_page page_size offset (VDict content)
  = (match py_iadd offset page_size with
     | inl e => inl e
     | inr offset' => inr (Continue offset')
     end, items).
Proof.
  intros Hdata Hne Hfull. unfold handle_page. simpl. unfold dict_contains.
  rewrite Hdata. destruct items as [|x items]; [contradiction|].
  simpl in *.
  match goal with
  | |- context [?a <? ?b] => destruct (Z.ltb_spec a b) as [Hlt|_]
  end; [lia|].
  now destruct (py_iadd offset page_size).
Qed.

Lemma calls_yields (items : list value) : calls (map Yield items) = [].
Proof. induction items; simpl; auto. Qed.

Lemma calls_app (e1 e2 : list event) : calls (e1 ++ e2) = calls e1 ++ calls e2.
Proof.
  induction e1 as [|[req reply|item] e1 IH]; simpl; congruence.
Qed.

Ltac unroll res id page_size fuel payload offset w :=
  let Hstep := fresh "Hstep" in
  pose proof (loop_step repr_str session_request res id page_size fuel
                payload offset w) as Hstep;
  cbv zeta in Hstep; rewrite Hstep in *; clear Hstep.

Lemma loop_events_in_blocks (res : resource) (id : string) (page_size : Z) :
  forall fuel payload offset w,
    let r := paginate_loop fuel (query_of repr_str session_request res id)
               page_size payload offset w in
    events r = flat_map (page_block repr_str) (calls (events r)).
Proof.
  induction fuel as [|fuel IH]; intros payload offset w r; subst r.
  - reflexivity.
  - unroll res id page_size fuel payload offset w.
    set (req0 := query_request res id (dict_set "offset" offset payload)).
    destruct (session_request w req0) as [w1 reply0]. simpl fst. simpl snd.
    destruct (reply_outcome repr_str reply0) as [e|response] eqn:Hout.
    + simpl. unfold page_block, reply_items. simpl. now rewrite Hout.
    + pose proof (handle_page_items page_size offset response) as Hitems.
      destruct (handle_page page_size offset response)
        as [[e|[|offset']] items]; simpl in Hitems; subst items; simpl;
        rewrite ?calls_app, ?calls_yields; simpl.
      * unfold reply_items. rewrite Hout. now rewrite app_nil_r.
      * unfold reply_items. rewrite Hout. now rewrite app_nil_r.
      * unfold reply_items at 1. rewrite Hout. f_equal. f_equal. apply IH.
Qed.

(** The events of a pagination run are, fetch by fetch, the call followed
    by exactly the items of the page it returned, in the page's order:
    every item of a fetched page is yielded, once, before the next fetch,
    and nothing else is yielded -- whatever the session answers. *)
Theorem events_are_fetched_pages (res : resource) (id : string)
    (payload : option dict) (page_size : Z) (fuel : nat) (w : World) :
  let r := paginator repr_str session_request res id payload page_size fuel w in
  events r = flat_map (page_block repr_str) (calls (events r))
  /\ yielded (events r)
     = flat_map (fun c => reply_items repr_str (snd c)) (calls (events r)).
Proof.
  intros r. subst r. rewrite paginator_eq. unfold paginate.
  match goal with
  | |- context [paginate_loop fuel ?q page_size ?p ?o w] =>
      pose proof (loop_events_in_blocks res id page_size fuel p o w) as Hev;
      cbv zeta in Hev; set (evs := events (paginate_loop fuel q page_size p o w)) in *
  end.
  split; [exact Hev|].
  rewrite Hev at 1. clear Hev.
  induction (calls evs) as [|[req reply] cs IH]; simpl; auto.
  rewrite yielded_app, yielded_yields. now rewrite IH.
Qed.

(** ** Offsets *)

Lemma loop_request_offsets (res : resource) (id : string) (page_size : Z) :
  forall fuel payload o w k req,
    nth_error (requests (events
                           (paginate_loop fuel
                              (query_of repr_str session_request res id)
                              page_size payload (VInt o) w))) k = Some req ->
    req = query_request res id
            (dict_set "offset" (VInt (o + Z.of_nat k * page_size)) payload).
Proof.
  induction fuel as [|fuel IH]; intros payload o w k req Hk.
  - destruct k; discriminate.
  - unroll res id page_size fuel payload (VInt o) w.
    set (payload1 := dict_set "offset" (VInt o) payload) in *.
    set (req0 := query_request res id payload1) in *.
    assert (Hfirst : req0 = query_request res id
                              (dict_set "offset"
                                 (VInt (o + Z.of_nat 0 * page_size)) payload))
      by (unfold req0, payload1; do 3 f_equal; lia).
    destruct (session_request w req0) as [w1 reply0]. simpl fst in *.
    simpl snd in *.
    destruct (reply_outcome repr_str reply0) as [e|response].
    + simpl in Hk. destruct k as [|[|k]]; try discriminate.
      now inversion Hk.
    + destruct (handle_page page_size (VInt o) response)
        as [[e|[|offset']] items] eqn:Hpage; simpl in Hk;
        rewrite ?requests_app, ?requests_yields in Hk; simpl in Hk.
      * destruct k as [|[|k]]; try discriminate. now inversion Hk.
      * destruct k as [|[|k]]; try discriminate. now inversion Hk.
      * destruct k as [|k]; [now inversion Hk|]. simpl in Hk.
        apply handle_page_continue in Hpage. simpl in Hpage.
        inversion Hpage. subst offset'.
        apply IH in Hk. rewrite Hk. unfold payload1.
        rewrite dict_set_set. do 3 f_equal. lia.
Qed.

(** With a starting offset that is an integer (or absent, which is 0), the
    requests of a pagination run are fully determined: the [k]-th one
    (counting from 0) is the POST to the query URL whose body is the
    payload, with its limit in force, and [offset = start + k * page_size].
    The offset always moves by [page_size], also when the payload's own
    limit is another number. *)
Theorem request_offsets_are_arithmetic (res : resource) (id : string)
    (payload : option dict) (page_size : Z) (fuel : nat) (w : World)
    (start : Z) (k : nat) (req : request) :
  let given := match payload with None => [] | Some p => p end in
  let r := paginator repr_str session_request res id payload page_size fuel w in
  dict_get_default "offset" (VInt 0) given = VInt start ->
  nth_error (requests (events r)) k = Some req ->
  req = query_request res id
          (dict_set "offset" (VInt (start + Z.of_nat k * page_size))
             (dict_setdefault "limit" (VInt page_size) given)).
Proof.
  intros given r Hstart Hk. subst r. rewrite paginator_eq in Hk.
  unfold paginate in Hk. fold given in Hk.
  assert (Hoffset : dict_get_default "offset" (VInt 0)
                      (dict_setdefault "limit" (VInt page_size) given)
                    = VInt start).
  { unfold dict_get_default in *.
    now rewrite dict_get_setdefault_ne by discriminate. }
  rewrite Hoffset in Hk. now apply loop_request_offsets in Hk.
Qed.

(** ** Runs that do not end *)

Lemma loop_never_ends (res : resource) (id : string) (page_size : Z) :
  always_full session_request page_size ->
  forall fuel payload o w,
    let r := paginate_loop fuel (query_of repr_str session_request res id)
               page_size payload (VInt o) w in
    ended r = Running /\ List.length (requests (events r)) = fuel.
Proof.
  intros Hfull. induction fuel as [|fuel IH]; intros payload o w r; subst r.
  - split; reflexivity.
  - unroll res id page_size fuel payload (VInt o) w.
    set (req0 := query_request res id (dict_set "offset" (VInt o) payload)).
    destruct (Hfull w req0)
      as (w1 & resp & content & items & Hreply & Hok & Hjson & Hdata & Hne & Hlen).
    rewrite Hreply. simpl fst. simpl snd. simpl reply_outcome.
    rewrite Hok, Hjson.
    rewrite (handle_page_full_list page_size (VInt o) content items Hdata Hne
               Hlen).
    simpl. rewrite requests_app, requests_yields. simpl.
    destruct (IH (dict_set "offset" (VInt o) payload) (o + page_size) w1)
      as [Hend Hcount].
    now rewrite Hend, Hcount.
Qed.

(** The generator has no bound of its own: against a session whose every
    page is full -- always the case for a non-empty page when [page_size]
    is zero or negative, or when the server ignores the offset -- it never
    ends; after any number of passes it is still running and has sent one
    request per pass. *)
Theorem full_pages_never_end (res : resource) (id : string)
    (payload : option dict) (page_size : Z) (fuel : nat) (w : World)
    (start : Z) :
  let given := match payload with None => [] | Some p => p end in
  let r := paginator repr_str session_request res id payload page_size fuel w in
  always_full session_request page_size ->
  dict_get_default "offset" (VInt 0) given = VInt start ->
  ended r = Running /\ List.length (requests (events r)) = fuel.
Proof.
  intros given r Hfull Hstart. subst r. rewrite paginator_eq.
  unfold paginate. fold given.
  assert (Hoffset : dict_get_default "offset" (VInt 0)
                      (dict_setdefault "limit" (VInt page_size) given)
                    = VInt start).
  { unfold dict_get_default in *.
    now rewrite dict_get_setdefault_ne by discriminate. }
  rewrite Hoffset. now apply loop_never_ends.
Qed.

(** A starting offset that cannot be added to -- a string, [None], a list
    or a dict in the payload -- is sent as it is with the first request and
    ends the run at the first page: at most one request is sent, and a
    first page that is not short has its items yielded and then makes the
    generator raise the [TypeError] of [offset += page_size]. *)
Theorem offset_that_cannot_advance (res : resource) (id : string)
    (payload : option dict) (page_size : Z) (fuel : nat) (w : World)
    (e : exn) :
  let given := match payload with None => [] | Some p => p end in
  let start := dict_get_default "offset" (VInt 0) given in
  let r := paginator repr_str session_request res id payload page_size fuel w in
  py_iadd start page_size = inl e ->
  (List.length (requests (events r)) <= 1)%nat
  /\ Forall (fun req => dict_get "offset" (body req) = Some start)
       (requests (events r))
  /\ (forall req resp content items post,
        events r = Call req (inr resp) :: post ->
        ok resp = true ->
        json resp = inr (VDict content) ->
        dict_get "data" content = Some (VList items) ->
        items <> [] ->
        page_size <= Z.of_nat (List.length items) ->
        post = map Yield items /\ ended r = Raised e).
Proof.
  intros given start r Hadd. subst r. rewrite paginator_eq.
  unfold paginate. fold given.
  assert (Hoffset : dict_get_default "offset" (VInt 0)
                      (dict_setdefault "limit" (VInt page_size) given)
                    = start).
  { unfold start, dict_get_default.
    now rewrite dict_get_setdefault_ne by discriminate. }
  rewrite Hoffset.
  set (base := dict_setdefault "limit" (VInt page_size) given).
  destruct fuel as [|fuel].
  - simpl. split; [auto|]. split; [constructor|]. intros; discriminate.
  - unroll res id page_size fuel base start w.
    set (req0 := query_request res id (dict_set "offset" start base)).
    assert (Hbody : dict_get "offset" (body req0) = Some start)
      by apply dict_get_set_eq.
    destruct (session_request w req0) as [w1 reply0]. simpl fst. simpl snd.
    destruct (reply_outcome repr_str reply0) as [e0|response] eqn:Hout.
    + simpl. split; [auto|]. split; [auto|].
      intros req resp content items post Hev Hok Hjson. inversion Hev.
      subst. simpl in Hout. rewrite Hok, Hjson in Hout. discriminate.
    + destruct (handle_page page_size start response)
        as [[e0|[|offset']] items0] eqn:Hpage;
        try (apply handle_page_continue in Hpage; congruence);
        simpl; rewrite requests_yields; (split; [auto|]);
        (split; [auto|]);
        intros req resp content items post Hev Hok Hjson Hdata Hne Hlen;
        inversion Hev; subst; simpl in Hout; rewrite Hok, Hjson in Hout;
        inversion Hout; subst;
        rewrite (handle_page_full_list page_size start content items Hdata
                   Hne Hlen), Hadd in Hpage;
        inversion Hpage; subst; auto.
Qed.

(** ** How many requests a run costs *)

Lemma chars_length (s : string) : List.length (chars s) = String.length s.
Proof. induction s; simpl; congruence. Qed.

Lemma py_len_of_iter (v : value) (items : list value) :
  py_iter v = inr items -> py_len v = inr (Z.of_nat (List.length items)).
Proof.
  destruct v; simpl; intros Heq; inversion Heq; subst; try discriminate.
  - now rewrite chars_length.
  - reflexivity.
  - now rewrite length_map.
Qed.

Lemma handle_page_continue_full (page_size : Z) (offset response offset' : value)
    (items : list value) :
  handle_page page_size offset response = (inr (Continue offset'), items) ->
  page_size <= Z.of_nat (List.length items).
Proof.
  unfold handle_page.
  destruct (py_contains "data" response) as [e|[|]]; try discriminate.
  destruct (py_getitem response "data") as [e|records]; try discriminate.
  destruct (py_bool records); simpl; try discriminate.
  destruct (py_iter records) as [e|items0] eqn:Hiter; try discriminate.
  rewrite (py_len_of_iter records items0 Hiter).
  destruct (Z.ltb_spec (Z.of_nat (List.length items0)) page_size);
    try discriminate.
  destruct (py_iadd offset page_size); try discriminate.
  intros Heq. inversion Heq. subst. assumption.
Qed.

Lemma loop_request_cost (res : resource) (id : string) (page_size : Z) :
  0 < page_size ->
  forall fuel payload offset w,
    let r := paginate_loop fuel (query_of repr_str session_request res id)
               page_size payload offset w in
    Z.of_nat (List.length (requests (events r))) * page_size
    <= Z.of_nat (List.length (yielded (events r))) + page_size.
Proof.
  intros Hpos. induction fuel as [|fuel IH]; intros payload offset w r; subst r.
  - simpl. lia.
  - unroll res id page_size fuel payload offset w.
    set (req0 := query_request res id (dict_set "offset" offset payload)).
    destruct (session_request w req0) as [w1 reply0]. simpl fst. simpl snd.
    destruct (reply_outcome repr_str reply0) as [e|response].
    + cbn [events requests yielded List.length]. lia.
    + destruct (handle_page page_size offset response)
        as [[e|[|offset']] items] eqn:Hpage;
        cbn [events requests yielded List.length ended];
        rewrite ?requests_app, ?yielded_app, ?requests_yields,
          ?yielded_yields;
        cbn [events requests yielded List.length app]; try lia.
      apply handle_page_continue_full in Hpage.
      specialize (IH (dict_set "offset" offset payload) offset' w1).
      cbv zeta in IH. rewrite length_app. lia.
Qed.

(** A run is frugal with requests: with a positive page size, however the
    session answers and wherever the consumer stops between pages, the
    number of requests sent is at most the number of items yielded divided
    by the page size, plus one. *)
Theorem requests_bounded_by_items (res : resource) (id : string)
    (payload : option dict) (page_size : Z) (fuel : nat) (w : World) :
  let r := paginator repr_str session_request res id payload page_size fuel w in
  0 < page_size ->
  Z.of_nat (List.length (requests (events r)))
  <= Z.of_nat (List.length (yielded (events r))) / page_size + 1.
Proof.
  intros r Hpos. subst r. rewrite paginator_eq. unfold paginate.
  match goal with
  | |- context [paginate_loop fuel ?q page_size ?p ?o w] =>
      pose proof (loop_request_cost res id page_size Hpos fuel p o w) as Hcost;
      cbv zeta in Hcost;
      set (evs := events (paginate_loop fuel q page_size p o w)) in *
  end.
  assert (Z.of_nat (List.length (requests evs)) - 1
          <= Z.of_nat (List.length (yielded evs)) / page_size)
    by (apply Z.div_le_lower_bound; lia).
  lia.
Qed.
End MoreProperties.

(** * Concrete runs *)

Lemma paged_server_serves (res : resource) (id : string) (db : list value) :
  serves_pages (paged_server db) res id db.
Proof.
  intros w payload limit offset Hlimit Hoffset _ _. unfold paged_server.
  change (body (query_request res id payload)) with payload.
  rewrite Hlimit, Hoffset. eexists _, _, _.
  repeat split; reflexivity.
Qed.

(** C1 as stated fails: with a payload that defines [limit = 3] and page
    size 2, over four items, every request still carries limit 3 (it is not
    overwritten with 2), the payload keeps it, and the offset moves on by 2
    (the page size), not by that limit. *)
Lemma limit_in_payload_is_not_overwritten :
  let r := paginate_records quote (paged_server (map VInt [1; 2; 3; 4]))
             "people" (Some [("limit", VInt 3)]) 2 5%nat tt in
  map body (requests (events r))
  = [ [("limit", VInt 3); ("offset", VInt 0)];
      [("limit", VInt 3); ("offset", VInt 2)];
      [("limit", VInt 3); ("offset", VInt 4)] ]
  /\ dict_get "limit" (payload_after r) = Some (VInt 3)
  /\ VInt 3 <> VInt 2.
Proof.
  vm_compute. repeat split; discriminate.
Qed.

(** Without a limit in the payload: page size 2 over four items, the first
    page is full and the second request carries offset 2. *)
Lemma offset_advances_example :
  let r := paginator quote (paged_server (map VInt [1; 2; 3; 4])) Records
             "people" None 2 5%nat tt in
  dict_get "limit" (payload_after r) = Some (VInt 2)
  /\ exists post,
      events r
      = Call (query_request Records "people" [("limit", VInt 2); ("offset", VInt 0)])
          (inr (ok_response (VDict [("data", VList [VInt 1; VInt 2])])))
          :: post
      /\ ((post = map Yield [VInt 1; VInt 2] /\ ended r = Running)
          \/ exists req' reply' post',
              post = map Yield [VInt 1; VInt 2] ++ Call req' reply' :: post'
              /\ dict_get "offset" (body req') = Some (VInt (0 + 2))).
Proof.
  intros r.
  destruct (limit_set_if_absent_and_offset_advances quote
              (paged_server (map VInt [1; 2; 3; 4])) Records "people" None 2
              5%nat tt) as (_ & Hlimit & Hadvance).
  split; [exact Hlimit|].
  eexists. split; [vm_compute; reflexivity|].
  refine (proj2 (Hadvance eq_refl ltac:(lia) [] _
                   (query_request Records "people"
                      [("limit", VInt 2); ("offset", VInt 0)])
                   (ok_response (VDict [("data", VList [VInt 1; VInt 2])]))
                   [("data", VList [VInt 1; VInt 2])] [VInt 1; VInt 2] 0
                   _ eq_refl eq_refl eq_refl ltac:(simpl; lia) eq_refl)).
  vm_compute. reflexivity.
Defined.

(** Seven records, page size 5: the second page holds two items, and the
    run ends after them. *)
Lemma short_second_page_example :
  let r := paginator quote (paged_server (map VInt [1; 2; 3; 4; 5; 6; 7]))
             Records "people" None 5 10%nat tt in
  skipn 7 (events r) = map Yield [VInt 6; VInt 7]
  /\ requests (skipn 7 (events r)) = []
  /\ ended r = StopIteration.
Proof.
  intros r.
  refine (short_page_ends_pagination quote
            (paged_server (map VInt [1; 2; 3; 4; 5; 6; 7])) Records "people"
            None 5 10%nat tt (firstn 6 (events r)) (skipn 7 (events r))
            (query_request Records "people"
               [("limit", VInt 5); ("offset", VInt 5)])
            (ok_response (VDict [("data", VList [VInt 6; VInt 7])]))
            [("data", VList [VInt 6; VInt 7])] [VInt 6; VInt 7]
            _ eq_refl eq_refl eq_refl ltac:(simpl; lia)).
  vm_compute. reflexivity.
Defined.

(** The scenario of the specification: seven records, page size 5, no
    payload: seven items from two requests. *)
Lemma seven_records_page_size_five :
  let db := map VInt [1; 2; 3; 4; 5; 6; 7] in
  let r := paginator quote (paged_server db) Records "people" None 5 2%nat tt in
  ended r = StopIteration
  /\ yielded (events r) = db
  /\ Z.of_nat (List.length (requests (events r))) = 2.
Proof.
  intros db r.
  exact (pagination_is_complete quote (paged_server db) Records "people" None
           5 db 2%nat tt 0 (paged_server_serves Records "people" db)
           ltac:(lia) eq_refl eq_refl ltac:(lia) ltac:(simpl; lia)).
Defined.

(** C3 as stated fails on payloads that carry pagination fields of their
    own, against a server that serves its result set consistently.  With
    [limit = 3] in the payload and page size 2, four records come out as
    five items, one of them twice; with [limit = 2] and page size 5, seven
    records come out as two items from a single request; with
    [offset = 3], seven records come out as the last four. *)
Lemma payload_pagination_fields_break_completeness :
  let four := map VInt [1; 2; 3; 4] in
  let seven := map VInt [1; 2; 3; 4; 5; 6; 7] in
  let twice := paginate_records quote (paged_server four) "people"
                 (Some [("limit", VInt 3)]) 2 10%nat tt in
  let early := paginate_records quote (paged_server seven) "people"
                 (Some [("limit", VInt 2)]) 5 10%nat tt in
  let late := paginate_records quote (paged_server seven) "people"
                (Some [("offset", VInt 3)]) 5 10%nat tt in
  serves_pages (paged_server four) Records "people" four
  /\ serves_pages (paged_server seven) Records "people" seven
  /\ ended twice = StopIteration
  /\ yielded (events twice) = map VInt [1; 2; 3; 3; 4]
  /\ ended early = StopIteration
  /\ yielded (events early) = map VInt [1; 2]
  /\ List.length (requests (events early)) = 1%nat
  /\ ended late = StopIteration
  /\ yielded (events late) = map VInt [4; 5; 6; 7].
Proof.
  split; [apply paged_server_serves|]. split; [apply paged_server_serves|].
  vm_compute. repeat split.
Qed.

(** The batch scenario of the specification, evaluated: five payloads, batch
    size 2, the payload at index 3 refused with status 422. *)
Example batch_scenario :
  fst (fst (batch_create_records quote picky_server "people" five_payloads 2 tt))
  = inr [ VDict [("data", VDict [("name", VStr "a")])];
          VDict [("data", VDict [("name", VStr "b")])];
          VDict [("data", VDict [("name", VStr "c")])];
          VDict [("error",
                  VStr "Unprocessable Entity (422): Validation error - invalid record");
                 ("payload", VDict [("fail", VBool true)])];
          VDict [("data", VDict [("name", VStr "e")])] ].
Proof. vm_compute. reflexivity. Qed.

Lemma batch_length_example :
  exists results w1 evs,
    batch_create_records quote picky_server "people" five_payloads 2 tt
    = (inr results, w1, evs)
    /\ List.length results = List.length five_payloads
    /\ forall k payload, nth_error five_payloads k = Some payload ->
         exists reply,
           nth_error evs k = Some (Call (create_request "people" payload) reply)
           /\ nth_error results k = Some (entry_for quote payload reply).
Proof.
  exact (batch_create_length_and_order quote picky_server "people"
           five_payloads 2 tt ltac:(lia)).
Defined.

Lemma batch_isolation_example :
  exists results w1 replies,
    batch_create_records quote picky_server "people" five_payloads 2 tt
    = (inr results, w1, calls_of "people" five_payloads replies)
    /\ List.length replies = List.length five_payloads
    /\ (forall k payload reply e,
          nth_error five_payloads k = Some payload ->
          nth_error replies k = Some reply ->
          reply_outcome quote reply = inl e ->
          nth_error results k
          = Some (VDict [("error", VStr (message e)); ("payload", payload)]))
    /\ (forall k payload reply created,
          nth_error five_payloads k = Some payload ->
          nth_error replies k = Some reply ->
          reply_outcome quote reply = inr created ->
          nth_error results k = Some created).
Proof.
  exact (batch_create_isolates_errors quote picky_server "people"
           five_payloads 2 tt ltac:(lia)).
Defined.

Lemma batch_size_example :
  batch_create_records quote picky_server "people" five_payloads 1 tt
  = batch_create_records quote picky_server "people" five_payloads 50 tt.
Proof.
  exact (batch_size_is_only_grouping quote picky_server "people" five_payloads
           1 50 tt ltac:(lia) ltac:(lia)).
Defined.

Lemma negative_batch_size_example :
  batch_create_records quote picky_server "people" five_payloads (-3) tt
  = (inr [], tt, []).
Proof.
  exact (proj1 (proj2 (batch_size_must_be_positive quote picky_server "people"
                         tt))
           five_payloads (-3) ltac:(lia)).
Defined.

(** A 422 response whose body carries a [message]. *)
Lemma unprocessable_example :
  exists e,
    _handle_error quote
      (error_response 422 "raw text"
         (inr (VDict [("message", VStr "invalid record")]))) = inl e
    /\ kind e = ValueError
    /\ message e
       = "Unprocessable Entity (422): Validation error - invalid record".
Proof.
  destruct (handle_error_raises_by_table quote
              (error_response 422 "raw text"
                 (inr (VDict [("message", VStr "invalid record")]))))
    as (e & Hraise & Hkind & _ & Hmessage & _).
  exists e. split; [exact Hraise|]. split; [exact Hkind|].
  exact (Hmessage [("message", VStr "invalid record")] "invalid record"
           eq_refl eq_refl).
Defined.

(** A full page of two, then a response without [data]. *)
Lemma missing_data_example :
  let replies :=
    [ inr (ok_response (VDict [("data", VList [VInt 1; VInt 2])]));
      inr (ok_response (VDict [("next", VNone)])) ] in
  let r := paginator quote scripted Entries "leads" None 2 10%nat replies in
  skipn 4 (events r) = []
  /\ ended r = StopIteration
  /\ yielded (events r) = yielded (firstn 3 (events r)).
Proof.
  intros replies r.
  refine (missing_or_empty_data_ends_pagination quote scripted Entries "leads"
            None 2 10%nat replies (firstn 3 (events r)) (skipn 4 (events r))
            (query_request Entries "leads"
               [("limit", VInt 2); ("offset", VInt 2)])
            (ok_response (VDict [("next", VNone)])) [("next", VNone)]
            _ eq_refl eq_refl (or_introl eq_refl)).
  vm_compute. reflexivity.
Defined.

(** A payload with a filter: the filter is still there afterwards. *)
Lemma filter_kept_example :
  let payload := [("filter", VStr "x")] in
  let r := paginator quote (paged_server (map VInt [1; 2; 3; 4])) Records
             "people" (Some payload) 2 5%nat tt in
  dict_get "filter" (payload_after r) = dict_get "filter" payload
  /\ Forall (fun req => dict_get "filter" (body req) = dict_get "filter" payload)
       (requests (events r)).
Proof.
  intros payload r.
  exact (proj1 (payload_changes_only_limit_and_offset quote
                  (paged_server (map VInt [1; 2; 3; 4])) Records "people"
                  payload 2 5%nat tt)
           "filter" ltac:(discriminate) ltac:(discriminate)).
Defined.

(** A full page of two, then a server error: the two items stay yielded and
    the run ends with the classifier's exception. *)
Lemma server_error_example :
  let failure := error_response 503 "unavailable" (inl (Raise_ ValueError "no JSON")) in
  let replies :=
    [ inr (ok_response (VDict [("data", VList [VInt 1; VInt 2])]));
      inr failure ] in
  let r := paginator quote scripted Records "people" None 2 10%nat replies in
  skipn 4 (events r) = []
  /\ ended r = Raised (Raise_ RuntimeError "Server Error (503): unavailable")
  /\ yielded (events r) = yielded (firstn 3 (events r)).
Proof.
  intros failure replies r.
  refine (fetch_error_propagates quote scripted Records "people" None 2
            10%nat replies (firstn 3 (events r)) (skipn 4 (events r))
            (query_request Records "people"
               [("limit", VInt 2); ("offset", VInt 2)])
            (inr failure) _ _ eq_refl).
  vm_compute. reflexivity.
Defined.

(** ** Object helpers, composition and offsets, run *)

(** The workspace above: of its four objects, the two whose [is_system] is
    [False] are kept, and the response's other key is gone. *)
Lemma custom_objects_example :
  fst (fst (list_custom_objects quote workspace_server tt))
  = inr (VDict [("data",
                 VList [ VDict [("api_slug", VStr "projects");
                                ("is_system", VBool false)];
                         VDict [("api_slug", VStr "deals");
                                ("is_system", VBool false)] ])]).
Proof.
  destruct (list_custom_objects_keeps_custom_only quote workspace_server tt)
    as (out & Hrun & _ & _ & Hkeep & _).
  rewrite Hrun. simpl fst.
  exact (Hkeep [("data", VList workspace_objects); ("next_page", VNone)]
           workspace_objects eq_refl eq_refl eq_refl).
Defined.

Lemma schema_example :
  fst (fst (get_object_schema quote workspace_server "projects" tt))
  = inr (VDict [("data",
                 VDict [("api_slug", VStr "projects");
                        ("attributes",
                         VList [VDict [("api_slug", VStr "name")]])]);
                ("meta", VInt 1)]).
Proof.
  destruct (get_object_schema_attaches_attributes quote workspace_server
              "projects" tt
              [("data", VDict [("api_slug", VStr "projects")]); ("meta", VInt 1)]
              (VDict [("api_slug", VStr "projects")]) eq_refl eq_refl)
    as (out & Hrun & _ & Hattach & _).
  rewrite Hrun. simpl fst.
  exact (proj1 (Hattach [("data", VList [VDict [("api_slug", VStr "name")]])]
                  [("api_slug", VStr "projects")] eq_refl eq_refl)).
Defined.

(** The schema just computed, read the way the example script reads it. *)
Lemma schema_read_example :
  exists e,
    schema_attributes
      (VDict [("data",
               VDict [("api_slug", VStr "projects");
                      ("attributes",
                       VList [VDict [("api_slug", VStr "name")]])]);
              ("meta", VInt 1)]) = inl e
    /\ kind e = LibraryError "AttributeError".
Proof.
  exact (schema_attributes_of_attached_list
           [("data", VDict [("api_slug", VStr "projects")]); ("meta", VInt 1)]
           [("api_slug", VStr "projects")]
           [("data", VList [VDict [("api_slug", VStr "name")]])] eq_refl).
Defined.

Lemma batch_in_two_calls_example :
  exists res1 w1 ev1 res2 w2 ev2,
    batch_create_records quote picky_server "people" (firstn 2 five_payloads)
      1 tt = (inr res1, w1, ev1)
    /\ batch_create_records quote picky_server "people"
         (skipn 2 five_payloads) 50 w1 = (inr res2, w2, ev2)
    /\ batch_create_records quote picky_server "people"
         (firstn 2 five_payloads ++ skipn 2 five_payloads) 2 tt
       = (inr (res1 ++ res2), w2, ev1 ++ ev2).
Proof.
  exact (batch_create_concatenates quote picky_server "people"
           (firstn 2 five_payloads) (skipn 2 five_payloads) 2 1 50 tt
           ltac:(lia) ltac:(lia) ltac:(lia)).
Defined.

(** Seven records, page size 5: the second request carries offset 5. *)
Lemma second_request_example :
  query_request Records "people" [("limit", VInt 5); ("offset", VInt 5)]
  = query_request Records "people"
      (dict_set "offset" (VInt (0 + Z.of_nat 1 * 5))
         (dict_setdefault "limit" (VInt 5) [])).
Proof.
  refine (request_offsets_are_arithmetic quote
            (paged_server (map VInt [1; 2; 3; 4; 5; 6; 7])) Records "people"
            None 5 10%nat tt 0 1%nat _ eq_refl _).
  vm_compute. reflexivity.
Defined.

Lemma stubborn_server_full (page : list value) (page_size : Z) :
  page <> [] ->
  page_size <= Z.of_nat (List.length page) ->
  always_full (stubborn_server page) page_size.
Proof.
  intros Hne Hlen w req. unfold stubborn_server.
  eexists _, _, _, _. repeat split; try reflexivity; assumption.
Qed.

(** Page size 0 with a limit of its own in the payload, against a server
    that keeps answering: seven passes, seven requests, still running. *)
Lemma zero_page_size_example :
  let r := paginator quote (stubborn_server [VInt 1; VInt 2]) Records "people"
             (Some [("limit", VInt 10)]) 0 7%nat tt in
  ended r = Running /\ List.length (requests (events r)) = 7%nat.
Proof.
  intros r.
  exact (full_pages_never_end quote (stubborn_server [VInt 1; VInt 2]) Records
           "people" (Some [("limit", VInt 10)]) 0 7%nat tt 0
           (stubborn_server_full [VInt 1; VInt 2] 0 ltac:(discriminate)
              ltac:(simpl; lia))
           eq_refl).
Defined.

(** An offset given as a string: the first page is delivered, then the run
    ends with [TypeError]. *)
Lemma string_offset_example :
  let page := ok_response (VDict [("data", VList [VInt 1; VInt 2])]) in
  let r := paginator quote scripted Records "people"
             (Some [("offset", VStr "10")]) 2 5%nat [inr page; inr page] in
  skipn 1 (events r) = map Yield [VInt 1; VInt 2]
  /\ exists e, ended r = Raised e /\ kind e = TypeError.
Proof.
  intros page r.
  destruct (offset_that_cannot_advance quote scripted Records "people"
              (Some [("offset", VStr "10")]) 2 5%nat [inr page; inr page]
              (Raise_ TypeError
                 ("can only concatenate str (not " ++ dquote ++ "int"
                    ++ dquote ++ ") to str"))
              eq_refl) as (_ & _ & Hfirst).
  destruct (Hfirst (query_request Records "people"
                      [("offset", VStr "10"); ("limit", VInt 2)])
              page [("data", VList [VInt 1; VInt 2])] [VInt 1; VInt 2]
              (skipn 1 (events r)) eq_refl eq_refl eq_refl eq_refl
              ltac:(discriminate) ltac:(simpl; lia)) as [Hpost Hend].
  split; [exact Hpost|]. eexists. split; [exact Hend|reflexivity].
Defined.

(** Seven records, page size 5: two requests for seven items. *)
Lemma request_cost_example :
  let r := paginator quote (paged_server (map VInt [1; 2; 3; 4; 5; 6; 7]))
             Records "people" None 5 10%nat tt in
  Z.of_nat (List.length (requests (events r)))
  <= Z.of_nat (List.length (yielded (events r))) / 5 + 1.
Proof.
  intros r.
  exact (requests_bounded_by_items quote
           (paged_server (map VInt [1; 2; 3; 4; 5; 6; 7])) Records "people"
           None 5 10%nat tt ltac:(lia)).
Defined.
